(** * terraform-provider-vcf: attribute maps, converters and schema builders

    A shallow embedding of
    - [internal/network/vmnic_subresource.go] ([VMNicSchema],
      [TryConvertToVmNic]),
    - the NSX sub-resource of package [network] ([NsxSchema],
      [TryConvertToNsxSpec], [NsxClusterRefSchema], [FlattenNsxClusterRef]),
    - the cluster part of package [sddc] ([GetSddcClusterSchema],
      [getResourcePoolSchema], [GetSddcClusterSpecFromSchema],
      [getResourcePoolSpecsFromSchema]),
    - the destroy check of the domain acceptance test
      ([testCheckVcfDomainDestroy]).

    Go's [interface{}] is the inductive [value]; a Go map that may be [nil]
    is an [option (gmap string _)]; a call ends in a result, in a returned
    error, or in a run-time panic (a failed single-value type assertion). *)

From Stdlib Require Import ZArith String List Bool Lia.
From Stdlib Require Import SpecFloat.
From stdpp Require Import gmap strings list fin_maps.

Set Warnings "-register-all".

(** ** Dynamic values *)

(** What an [interface{}] of these packages can hold: the nil interface,
    [string], [int], [float64], [bool], [[]interface{}],
    [map[string]interface{}] and [map[string]string].  A map inside an
    interface may be the nil map ([None]); an interface that holds it is
    still not the nil interface.  A slice is its list of elements: the code
    only takes [len] of a slice and ranges over it, which a nil and an empty
    slice answer alike. *)
Inductive value : Type :=
| VNil
| VString (s : string)
| VInt (z : Z)
| VFloat (f : spec_float)
| VBool (b : bool)
| VList (l : list value)
| VMap (m : option (gmap string value))
| VStrMap (m : option (gmap string string)).

(** [map[string]interface{}], possibly nil. *)
Abbreviation gomap := (option (gmap string value)).

(** ** Outcomes and the converter monad *)

(** [Ok a]: the call returned [a] (with a nil error where it has one);
    [Err msg]: it returned a nil result and [fmt.Errorf(msg)];
    [Panic]: a type assertion [x.(T)] failed. *)
Inductive outcome (A : Type) : Type :=
| Ok (a : A)
| Err (msg : string)
| Panic.
Arguments Ok {A} a.
Arguments Err {A} msg.
Arguments Panic {A}.

(** A computation yields an outcome and the keys it indexed its argument
    map with, in order. *)
Definition M (A : Type) : Type := (outcome A * list string)%type.

Definition result {A} (c : M A) : outcome A := fst c.
Definition reads {A} (c : M A) : list string := snd c.

Definition ret {A} (a : A) : M A := (Ok a, []).
Definition fail {A} (msg : string) : M A := (Err msg, []).
Definition panic {A} : M A := (Panic, []).
Definition lift {A} (o : outcome A) : M A := (o, []).

Definition bind {A B} (c : M A) (k : A -> M B) : M B :=
  match c with
  | (Ok a, l) => let (o, l') := k a in (o, (l ++ l')%list)
  | (Err msg, l) => (Err msg, l)
  | (Panic, l) => (Panic, l)
  end.

Arguments bind : simpl never.

Notation "'let*' x ':=' c 'in' k" := (bind c (fun x => k))
  (at level 10, x name, c at level 100, k at level 200).
Notation "'let*' ( x , y ) ':=' c 'in' k" := (bind c (fun p => let (x, y) := p in k))
  (at level 10, x name, y name, c at level 100, k at level 200).

(** [object[k]]: the stored value, or the nil interface when the key is
    absent or the map is nil. *)
Definition at_key (object : gomap) (k : string) : value :=
  match object with
  | Some m => default VNil (m !! k)
  | None => VNil
  end.

Definition index (object : gomap) (k : string) : M value :=
  (Ok (at_key object k), [k]).

(** [v, ok := object[k]]. *)
Definition present (object : gomap) (k : string) : bool :=
  match object with
  | Some m => match m !! k with Some _ => true | None => false end
  | None => false
  end.

Definition index_ok (object : gomap) (k : string) : M (value * bool) :=
  (Ok (at_key object k, present object k), [k]).

(** [object == nil] on a map. *)
Definition nil_map (object : gomap) : bool :=
  match object with None => true | Some _ => false end.

(** Single-value type assertions: they panic on any other dynamic type,
    the nil interface included. *)
Definition as_string (v : value) : M string :=
  match v with VString s => ret s | _ => panic end.
Definition as_int (v : value) : M Z :=
  match v with VInt z => ret z | _ => panic end.
Definition as_float64 (v : value) : M spec_float :=
  match v with VFloat f => ret f | _ => panic end.
Definition as_bool (v : value) : M bool :=
  match v with VBool b => ret b | _ => panic end.
Definition as_list (v : value) : M (list value) :=
  match v with VList l => ret l | _ => panic end.
Definition as_map (v : value) : M gomap :=
  match v with VMap m => ret m | _ => panic end.
Definition as_strmap (v : value) : M (option (gmap string string)) :=
  match v with VStrMap m => ret m | _ => panic end.

(** [if cond { return nil, fmt.Errorf(msg) }]. *)
Definition return_error_if (cond : bool) (msg : string) : M unit :=
  if cond then fail msg else ret tt.

(** [len(s) == 0] on a string. *)
Definition len0 (s : string) : bool := Nat.eqb (String.length s) 0.

(** [strings.Contains(s, sub)], used to read error messages. *)
Fixpoint contains (sub s : string) : bool :=
  String.prefix sub s ||
  match s with
  | EmptyString => false
  | String _ s' => contains sub s'
  end.

(** ** The SDK's models (the fields this code assigns or reads) *)

(** [models.VMNic]. *)
Record VMNic : Type := mkVMNic {
  VMNic_ID : string;
  VMNic_Uplink : string;
  VMNic_VdsName : string }.

(** [models.NsxTClusterReference]: three strings in vcf-sdk-go. *)
Record NsxTClusterReference : Type := mkNsxTClusterReference {
  Ref_ID : string;
  Ref_Vip : string;
  Ref_VipFqdn : string }.

(** [models.ResourcePoolSpec]; [int32] and [int64] fields are integers in
    range, pointers are options. *)
Record ResourcePoolSpec : Type := mkResourcePoolSpec {
  CPULimit : Z;
  CPUReservationExpandable : bool;
  CPUReservationMhz : Z;
  CPUReservationPercentage : option Z;
  CPUSharesValue : Z;
  CPUSharesLevel : string;
  MemoryLimit : Z;
  MemorySharesLevel : string;
  MemoryReservationPercentage : option Z;
  MemoryReservationExpandable : option bool;
  MemoryReservationMb : Z;
  MemorySharesValue : Z;
  Pool_Name : option string;
  Pool_Type : string }.

(** [models.SDDCClusterSpec]. *)
Record SDDCClusterSpec : Type := mkSDDCClusterSpec {
  ClusterEvcMode : string;
  ClusterName : option string;
  HostFailuresToTolerate : option Z;
  VMFolders : option (gmap string string);
  ResourcePoolSpecs : list ResourcePoolSpec }.

(** [int32(x)] of an [int]: the low 32 bits, read as two's complement. *)
Definition int32_of_int (z : Z) : Z :=
  (z + 2147483648) mod 4294967296 - 2147483648.

(** [object[k].(string)] and its siblings: index, then assert. *)
Definition index_string (object : gomap) (k : string) : M string :=
  let* v := index object k in as_string v.
Definition index_int (object : gomap) (k : string) : M Z :=
  let* v := index object k in as_int v.
Definition index_float64 (object : gomap) (k : string) : M spec_float :=
  let* v := index object k in as_float64 v.
Definition index_bool (object : gomap) (k : string) : M bool :=
  let* v := index object k in as_bool v.
Definition index_list (object : gomap) (k : string) : M (list value) :=
  let* v := index object k in as_list v.

(** [x == nil] on an interface. *)
Definition is_nil (v : value) : bool :=
  match v with VNil => true | _ => false end.

(** ** The converters *)

Section Converters.

(** Functions that the converters call and that other files of the
    repository define; the development is parametric in them.
    - [validation.IsEmpty] (package [internal/validation]), taken to answer
      with a boolean on every value;
    - [TryConvertToNsxManagerNodeSpec] (package [network]), which returns a
      [models.NsxManagerSpec] by value, or an error;
    - [ToStringPointer], [ToInt32Pointer], [ToBoolPointer] (package
      [internal/resource_utils]);
    and the conversion [int64(f)] of a [float64], which the language leaves
    to the implementation when [f] is out of range. *)
Variable IsEmpty : value -> bool.
Variable NsxManagerSpec : Type.
Variable TryConvertToNsxManagerNodeSpec : gomap -> outcome NsxManagerSpec.
Variable ToStringPointer : value -> outcome (option string).
Variable ToInt32Pointer : value -> outcome (option Z).
Variable ToBoolPointer : value -> outcome (option bool).
Variable int64_of_float64 : spec_float -> Z.

(** *** [TryConvertToVmNic] *)

Definition TryConvertToVmNic (object : gomap) : M VMNic :=
  let* _ := return_error_if (nil_map object)
              "cannot convert to VMNic, object is nil" in
  let* id := index_string object "id" in
  let* _ := return_error_if (len0 id)
              "cannot convert to VMNic, id is required" in
  let result := mkVMNic id "" "" in
  let* (uplink, ok) := index_ok object "uplink" in
  let* result :=
    if ok && negb (IsEmpty uplink)
    then let* s := as_string uplink in
         ret (mkVMNic (VMNic_ID result) s (VMNic_VdsName result))
    else ret result in
  let* (vdsName, ok) := index_ok object "vds_name" in
  let* result :=
    if ok && negb (IsEmpty vdsName)
    then let* s := as_string vdsName in
         ret (mkVMNic (VMNic_ID result) (VMNic_Uplink result) s)
    else ret result in
  ret result.

(** *** [TryConvertToNsxSpec] *)

(** [models.NsxTSpec]; [Vip] and [VipFqdn] are [*string].  The slice of
    [*models.NsxManagerSpec] is the list of the pointed-to specs: every
    pointer the converter appends is the address of a fresh variable. *)
Record NsxTSpec : Type := mkNsxTSpec {
  FormFactor : string;
  LicenseKey : string;
  NsxManagerAdminPassword : string;
  NsxManagerAuditPassword : string;
  NsxManagerSpecs : list NsxManagerSpec;
  Vip : option string;
  VipFqdn : option string }.

Definition set_FormFactor (s : string) (r : NsxTSpec) : NsxTSpec :=
  mkNsxTSpec s (LicenseKey r) (NsxManagerAdminPassword r)
    (NsxManagerAuditPassword r) (NsxManagerSpecs r) (Vip r) (VipFqdn r).
Definition set_NsxManagerAuditPassword (s : string) (r : NsxTSpec) : NsxTSpec :=
  mkNsxTSpec (FormFactor r) (LicenseKey r) (NsxManagerAdminPassword r)
    s (NsxManagerSpecs r) (Vip r) (VipFqdn r).
Definition set_NsxManagerSpecs (l : list NsxManagerSpec) (r : NsxTSpec) : NsxTSpec :=
  mkNsxTSpec (FormFactor r) (LicenseKey r) (NsxManagerAdminPassword r)
    (NsxManagerAuditPassword r) l (Vip r) (VipFqdn r).

(** The [for ... range nsxManagerList] loop, from the entries still to
    visit and the specs appended so far. *)
Fixpoint convert_nsx_manager_list (nsxManagerList : list value)
    (nsxManagerSpecs : list NsxManagerSpec) : M (list NsxManagerSpec) :=
  match nsxManagerList with
  | [] => ret nsxManagerSpecs
  | nsxManagerListEntry :: rest =>
      let* nsxManager := as_map nsxManagerListEntry in
      let* nsxManagerSpec := lift (TryConvertToNsxManagerNodeSpec nsxManager) in
      convert_nsx_manager_list rest (nsxManagerSpecs ++ [nsxManagerSpec])
  end.

Definition TryConvertToNsxSpec (object : gomap) : M NsxTSpec :=
  let* _ := return_error_if (nil_map object)
              "cannot convert to NsxTSpec, object is nil" in
  let* vip := index_string object "vip" in
  let* _ := return_error_if (len0 vip)
              "cannot convert to NsxTSpec, vip is required" in
  let* vipFqdn := index_string object "vip_fqdn" in
  let* _ := return_error_if (len0 vipFqdn)
              "cannot convert to NsxTSpec, vip_fqdn is required" in
  let* nsx_manager := index object "nsx_manager" in
  let* _ := return_error_if (is_nil nsx_manager)
              "cannot convert to NsxTSpec, nsx_manager is required" in
  let* nsxManagerAdminPassword := index_string object "nsx_manager_admin_password" in
  let* _ := return_error_if (len0 nsxManagerAdminPassword)
              "cannot convert to NsxTSpec, nsx_manager_admin_password is required" in
  let* licenseKey := index_string object "license_key" in
  let* _ := return_error_if (len0 licenseKey)
              "cannot convert to NsxTSpec, license_key is required" in
  let result :=
    mkNsxTSpec "" licenseKey nsxManagerAdminPassword "" [] (Some vip) (Some vipFqdn) in
  let* (formFactor, ok) := index_ok object "form_factor" in
  let* result :=
    if ok && negb (IsEmpty formFactor)
    then let* s := as_string formFactor in ret (set_FormFactor s result)
    else ret result in
  let* (nsxManagerAuditPassword, ok) := index_ok object "nsx_manager_audit_password" in
  let* result :=
    if ok && negb (IsEmpty nsxManagerAuditPassword)
    then let* s := as_string nsxManagerAuditPassword in
         ret (set_NsxManagerAuditPassword s result)
    else ret result in
  let* nsxManagerList := index_list object "nsx_manager_node" in
  let* _ := return_error_if (Nat.eqb (length nsxManagerList) 0)
              "cannot convert to NsxTSpec, at least one entry for nsx_manager is required" in
  let* nsxManagerSpecs := convert_nsx_manager_list nsxManagerList [] in
  ret (set_NsxManagerSpecs nsxManagerSpecs result).

(** *** [FlattenNsxClusterRef] *)

(** The result is a [*map[string]interface{}]: [None] would be the nil
    pointer, [Some None] a pointer to the nil map. *)
Definition FlattenNsxClusterRef (nsxClusterRef : option NsxTClusterReference)
    : option gomap :=
  let result : gmap string value := ∅ in
  match nsxClusterRef with
  | None => Some (Some result)
  | Some r =>
      let result := <["id" := VString (Ref_ID r)]> result in
      let result := <["vip" := VString (Ref_Vip r)]> result in
      let result := <["vip_fqdn" := VString (Ref_VipFqdn r)]> result in
      Some (Some result)
  end.

(** *** [getResourcePoolSpecsFromSchema] and [GetSddcClusterSpecFromSchema] *)

(** The body of the [for ... range rawData] loop: one pool. *)
Definition resource_pool_spec (resourcePool : value) : M ResourcePoolSpec :=
  let* data := as_map resourcePool in
  let* cpuLimit := index_float64 data "cpu_limit" in
  let* cpuReservationExpandable := index_bool data "cpu_reservation_expandable" in
  let* cpuReservationMhz := index_float64 data "cpu_reservation_mhz" in
  let* v := index data "cpu_reservation_percentage" in
  let* cpuReservationPercentage := lift (ToInt32Pointer v) in
  let* cpuSharesLevel := index_string data "cpu_shares_level" in
  let* cpuSharesValue := index_int data "cpu_shares_value" in
  let* memoryLimit := index_float64 data "memory_limit" in
  let* v := index data "memory_reservation_percentage" in
  let* memoryReservationPercentage := lift (ToInt32Pointer v) in
  let* v := index data "memory_reservation_expandable" in
  let* memoryReservationExpandable := lift (ToBoolPointer v) in
  let* memoryReservationMB := index_float64 data "memory_reservation_mb" in
  let* memorySharesLevel := index_string data "memory_shares_level" in
  let* memorySharesValue := index_int data "memory_shares_value" in
  let* v := index data "name" in
  let* name := lift (ToStringPointer v) in
  let* resourcePoolType := index_string data "type" in
  ret {| CPULimit := int64_of_float64 cpuLimit;
         CPUReservationExpandable := cpuReservationExpandable;
         CPUReservationMhz := int64_of_float64 cpuReservationMhz;
         CPUReservationPercentage := cpuReservationPercentage;
         CPUSharesValue := int32_of_int cpuSharesValue;
         CPUSharesLevel := cpuSharesLevel;
         MemoryLimit := int64_of_float64 memoryLimit;
         MemorySharesLevel := memorySharesLevel;
         MemoryReservationPercentage := memoryReservationPercentage;
         MemoryReservationExpandable := memoryReservationExpandable;
         MemoryReservationMb := int64_of_float64 memoryReservationMB;
         MemorySharesValue := int32_of_int memorySharesValue;
         Pool_Name := name;
         Pool_Type := resourcePoolType |}.

Fixpoint resource_pool_loop (rawData : list value)
    (resourcePoolSpecs : list ResourcePoolSpec) : M (list ResourcePoolSpec) :=
  match rawData with
  | [] => ret resourcePoolSpecs
  | resourcePool :: rest =>
      let* resourcePoolSpec := resource_pool_spec resourcePool in
      resource_pool_loop rest (resourcePoolSpecs ++ [resourcePoolSpec])
  end.

Definition getResourcePoolSpecsFromSchema (rawData : list value)
    : M (list ResourcePoolSpec) :=
  resource_pool_loop rawData [].

(** [rawData[0]]: a run-time panic when the index is out of range. *)
Definition first_element (rawData : list value) : M value :=
  match rawData !! 0%nat with
  | Some v => ret v
  | None => panic
  end.

Definition GetSddcClusterSpecFromSchema (rawData : list value)
    : M (option SDDCClusterSpec) :=
  if (length rawData <=? 0)%nat then ret None else
  let* first := first_element rawData in
  let* data := as_map first in
  let* v := index data "cluster_name" in
  let* clusterName := lift (ToStringPointer v) in
  let* clusterEvcMode := index_string data "cluster_evc_mode" in
  let* v := index data "host_failures_to_tolerate" in
  let* hostFailuresToTolerate := lift (ToInt32Pointer v) in
  let* v := index data "vm_folder" in
  let* vmFolder :=
    if negb (IsEmpty v)
    then let* v := index data "vm_folder" in as_strmap v
    else ret None in
  let clusterSpecBinding :=
    {| ClusterEvcMode := clusterEvcMode;
       ClusterName := clusterName;
       HostFailuresToTolerate := hostFailuresToTolerate;
       VMFolders := vmFolder;
       ResourcePoolSpecs := [] |} in
  let* pools := index_list data "resource_pool" in
  let* resourcePoolSpecs := getResourcePoolSpecsFromSchema pools in
  let clusterSpecBinding :=
    if (0 <? length resourcePoolSpecs)%nat
    then mkSDDCClusterSpec (ClusterEvcMode clusterSpecBinding)
           (ClusterName clusterSpecBinding)
           (HostFailuresToTolerate clusterSpecBinding)
           (VMFolders clusterSpecBinding) resourcePoolSpecs
    else clusterSpecBinding in
  ret (Some clusterSpecBinding).

End Converters.

Arguments NsxTSpec NsxManagerSpec : assert.
Arguments mkNsxTSpec {NsxManagerSpec}.
Arguments FormFactor {NsxManagerSpec} r : rename.
Arguments LicenseKey {NsxManagerSpec} r : rename.
Arguments NsxManagerAdminPassword {NsxManagerSpec} r : rename.
Arguments NsxManagerAuditPassword {NsxManagerSpec} r : rename.
Arguments NsxManagerSpecs {NsxManagerSpec} r : rename.
Arguments Vip {NsxManagerSpec} r : rename.
Arguments VipFqdn {NsxManagerSpec} r : rename.
Arguments set_FormFactor {NsxManagerSpec}.
Arguments set_NsxManagerAuditPassword {NsxManagerSpec}.
Arguments set_NsxManagerSpecs {NsxManagerSpec}.
Arguments convert_nsx_manager_list {NsxManagerSpec}.
Arguments TryConvertToNsxSpec IsEmpty {NsxManagerSpec}.

(** ** Schema trees *)

(** [schema.ValueType]. *)
Inductive ValueType : Type :=
| TypeInvalid | TypeBool | TypeInt | TypeFloat | TypeString
| TypeList | TypeMap | TypeSet.

(** A [schema.SchemaValidateFunc] value, by the function it names and the
    arguments its constructor captured. *)
Inductive validator : Type :=
| NoZeroValues
| ValidateIPv4AddressSchema
| ValidatePassword
| ValidateParsingFloatToInt
| IntBetween (min max : Z)
| StringInSlice (valid : list string) (ignoreCase : bool).

(** [schema.Schema], with the fields these builders set.  [Elem] is an
    interface: nil, a [*schema.Schema] ([inl]) or a [*schema.Resource]
    ([inr], the resource's [Schema] map). *)
Inductive Schema : Type := mkSchema {
  Type_ : ValueType;
  Optional : bool;
  Required : bool;
  Default : value;
  Description : string;
  Computed : bool;
  Elem : option (Schema + gmap string Schema);
  MaxItems : Z;
  ValidateFunc : option validator;
  Sensitive : bool }.

(** [schema.Resource]: its [Schema] field. *)
Abbreviation Resource := (gmap string Schema).

(** The zero value [schema.Schema{}]. *)
Definition zero_Schema : Schema :=
  mkSchema TypeInvalid false false VNil "" false None 0 None false.

Definition set_Type (t : ValueType) (s : Schema) : Schema :=
  mkSchema t (Optional s) (Required s) (Default s) (Description s)
    (Computed s) (Elem s) (MaxItems s) (ValidateFunc s) (Sensitive s).
Definition set_Optional (b : bool) (s : Schema) : Schema :=
  mkSchema (Type_ s) b (Required s) (Default s) (Description s)
    (Computed s) (Elem s) (MaxItems s) (ValidateFunc s) (Sensitive s).
Definition set_Required (b : bool) (s : Schema) : Schema :=
  mkSchema (Type_ s) (Optional s) b (Default s) (Description s)
    (Computed s) (Elem s) (MaxItems s) (ValidateFunc s) (Sensitive s).
Definition set_Default (v : value) (s : Schema) : Schema :=
  mkSchema (Type_ s) (Optional s) (Required s) v (Description s)
    (Computed s) (Elem s) (MaxItems s) (ValidateFunc s) (Sensitive s).
Definition set_Description (d : string) (s : Schema) : Schema :=
  mkSchema (Type_ s) (Optional s) (Required s) (Default s) d
    (Computed s) (Elem s) (MaxItems s) (ValidateFunc s) (Sensitive s).
Definition set_Computed (b : bool) (s : Schema) : Schema :=
  mkSchema (Type_ s) (Optional s) (Required s) (Default s) (Description s)
    b (Elem s) (MaxItems s) (ValidateFunc s) (Sensitive s).
Definition set_Elem (e : Schema + gmap string Schema) (s : Schema) : Schema :=
  mkSchema (Type_ s) (Optional s) (Required s) (Default s) (Description s)
    (Computed s) (Some e) (MaxItems s) (ValidateFunc s) (Sensitive s).
Definition set_MaxItems (n : Z) (s : Schema) : Schema :=
  mkSchema (Type_ s) (Optional s) (Required s) (Default s) (Description s)
    (Computed s) (Elem s) n (ValidateFunc s) (Sensitive s).
Definition set_ValidateFunc (f : validator) (s : Schema) : Schema :=
  mkSchema (Type_ s) (Optional s) (Required s) (Default s) (Description s)
    (Computed s) (Elem s) (MaxItems s) (Some f) (Sensitive s).
Definition set_Sensitive (b : bool) (s : Schema) : Schema :=
  mkSchema (Type_ s) (Optional s) (Required s) (Default s) (Description s)
    (Computed s) (Elem s) (MaxItems s) (ValidateFunc s) b.

(** A composite literal [{F1: v1, F2: v2, ...}]: the zero value with the
    listed fields set. *)
Definition lit (fields : list (Schema -> Schema)) : Schema :=
  fold_left (fun s f => f s) fields zero_Schema.

(** The double quote, for the descriptions that quote their values. *)
Definition dq : string :=
  String (Ascii.Ascii false true false false false true false false) EmptyString.

(** ** Package state and the builders *)

(** The package-level variables of package [sddc]. *)
Record PkgVars : Type := mkPkgVars {
  sharesLevelValues : list string;
  resourcePoolTypeValues : list string }.

(** Their values once the package is initialised. *)
Definition pkg_init : PkgVars :=
  {| sharesLevelValues := ["custom"; "high"; "low"; "normal"];
     resourcePoolTypeValues := ["management"; "compute"; "network"] |}.

(** A builder runs in a state of the package variables and returns its
    tree together with the state it leaves. *)
Definition Builder (A : Type) : Type := PkgVars -> A * PkgVars.

Definition built {A} (a : A) : Builder A := fun s => (a, s).
Definition read_var {A} (var : PkgVars -> A) : Builder A := fun s => (var s, s).
Definition and_then {A B} (c : Builder A) (k : A -> Builder B) : Builder B :=
  fun s => let (a, s') := c s in k a s'.

Notation "'let+' x ':=' c 'in' k" := (and_then c (fun x => k))
  (at level 10, x name, c at level 100, k at level 200).

Section Builders.

(** Modelled from the spec: [NsxManagerNodeSchema] of package [network] is
    defined in another file; the spec describes every [*Schema()] function
    as "a schema builder function returning a static attribute-definition
    tree", so this one returns a fixed tree. *)
Variable nsx_manager_node_tree : Resource.

Definition NsxManagerNodeSchema : Builder Resource := built nsx_manager_node_tree.

Definition VMNicSchema : Builder Resource :=
  built (list_to_map [
    ("id", lit [
       set_Type TypeString;
       set_Required true;
       set_Description "ESXI host vmnic ID to be associated with a VDS, once added to cluster";
       set_ValidateFunc NoZeroValues]);
    ("uplink", lit [
       set_Type TypeString;
       set_Optional true;
       set_Description "Uplink to be associated with vmnic";
       set_ValidateFunc NoZeroValues]);
    ("vds_name", lit [
       set_Type TypeString;
       set_Optional true;
       set_Description "Name of the VDS to associate with the ESXi host";
       set_ValidateFunc NoZeroValues])]).

Definition NsxSchema : Builder Resource :=
  let+ node := NsxManagerNodeSchema in
  built (list_to_map [
    ("vip", lit [
       set_Type TypeString;
       set_Required true;
       set_Description "Virtual IP address which would act as proxy/alias for NSX Managers";
       set_ValidateFunc ValidateIPv4AddressSchema]);
    ("vip_fqdn", lit [
       set_Type TypeString;
       set_Required true;
       set_Description "FQDN for VIP so that common SSL certificates can be installed across all managers";
       set_ValidateFunc NoZeroValues]);
    ("license_key", lit [
       set_Type TypeString;
       set_Required true;
       set_Description "NSX license value";
       set_ValidateFunc NoZeroValues]);
    ("form_factor", lit [
       set_Type TypeString;
       set_Optional true;
       set_Description "NSX manager form factor";
       set_ValidateFunc NoZeroValues]);
    ("nsx_manager_admin_password", lit [
       set_Type TypeString;
       set_Required true;
       set_Sensitive true;
       set_Description "NSX manager admin password (basic auth and SSH)";
       set_ValidateFunc ValidatePassword]);
    ("nsx_manager_audit_password", lit [
       set_Type TypeString;
       set_Optional true;
       set_Sensitive true;
       set_Description "NSX manager Audit password";
       set_ValidateFunc ValidatePassword]);
    ("nsx_manager_node", lit [
       set_Type TypeList;
       set_Required true;
       set_Description "Specification details of the NSX Manager virtual machines. 3 of these are required for the first workload domain";
       set_Elem (inr node)])]).

Definition NsxClusterRefSchema : Builder Resource :=
  built (list_to_map [
    ("id", lit [
       set_Type TypeString;
       set_Computed true;
       set_Description "ID of the NSX cluster"]);
    ("vip", lit [
       set_Type TypeString;
       set_Computed true;
       set_Description "VIP (Virtual IP Address) of the NSX cluster"]);
    ("vip_fqdn", lit [
       set_Type TypeString;
       set_Computed true;
       set_Description "FQDN for VIP of the NSX cluster"])]).

End Builders.

Definition getResourcePoolSchema : Builder Schema :=
  let+ typeValues := read_var resourcePoolTypeValues in
  let+ cpuLevels := read_var sharesLevelValues in
  let+ memoryLevels := read_var sharesLevelValues in
  built (lit [
    set_Type TypeList;
    set_Optional true;
    set_Elem (inr (list_to_map [
      ("name", lit [
         set_Type TypeString;
         set_Description "Resource Pool name";
         set_Required true]);
      ("type", lit [
         set_Type TypeString;
         set_Description
           ("Type of resource pool, possible values: " +:+ dq +:+ "management"
            +:+ dq +:+ ", " +:+ dq +:+ "compute" +:+ dq +:+ ", " +:+ dq
            +:+ "network" +:+ dq);
         set_Optional true;
         set_ValidateFunc (StringInSlice typeValues false)]);
      ("cpu_limit", lit [
         set_Type TypeFloat;
         set_Description "CPU limit, default -1 (unlimited)";
         set_Optional true;
         set_Default (VInt (-1));
         set_ValidateFunc ValidateParsingFloatToInt]);
      ("cpu_reservation_expandable", lit [
         set_Type TypeBool;
         set_Description "Is CPU reservation expandable, default true";
         set_Optional true;
         set_Default (VBool true)]);
      ("cpu_reservation_mhz", lit [
         set_Type TypeFloat;
         set_Description "CPU reservation in Mhz";
         set_Optional true;
         set_ValidateFunc ValidateParsingFloatToInt]);
      ("cpu_reservation_percentage", lit [
         set_Type TypeInt;
         set_Description "CPU reservation percentage, from 0 to 100, default 0";
         set_Optional true;
         set_Default (VInt 0);
         set_ValidateFunc (IntBetween 0 100)]);
      ("cpu_shares_level", lit [
         set_Type TypeString;
         set_Description
           ("CPU shares level, default 'normal', possible values: " +:+ dq
            +:+ "custom" +:+ dq +:+ ", " +:+ dq +:+ "high" +:+ dq +:+ ", "
            +:+ dq +:+ "low" +:+ dq +:+ ", " +:+ dq +:+ "normal" +:+ dq);
         set_Optional true;
         set_Default (VString "normal");
         set_ValidateFunc (StringInSlice cpuLevels false)]);
      ("cpu_shares_value", lit [
         set_Type TypeInt;
         set_Description "CPU shares value, only required when shares level is 'normal'";
         set_Optional true;
         set_Default (VInt 0)]);
      ("memory_limit", lit [
         set_Type TypeFloat;
         set_Description "Memory limit, default -1 (unlimited)";
         set_Optional true;
         set_Default (VInt (-1));
         set_ValidateFunc ValidateParsingFloatToInt]);
      ("memory_reservation_expandable", lit [
         set_Type TypeBool;
         set_Description "Is Memory reservation expandable, default true";
         set_Optional true;
         set_Default (VBool true)]);
      ("memory_reservation_mb", lit [
         set_Type TypeFloat;
         set_Description "Memory reservation in MB";
         set_Optional true;
         set_ValidateFunc ValidateParsingFloatToInt]);
      ("memory_reservation_percentage", lit [
         set_Type TypeInt;
         set_Description "Memory reservation percentage, from 0 to 100, default 0";
         set_Optional true;
         set_Default (VInt 0);
         set_ValidateFunc (IntBetween 0 100)]);
      ("memory_shares_level", lit [
         set_Type TypeString;
         set_Description
           ("Memory shares level, default 'normal', possible values: " +:+ dq
            +:+ "custom" +:+ dq +:+ ", " +:+ dq +:+ "high" +:+ dq +:+ ", "
            +:+ dq +:+ "low" +:+ dq +:+ ", " +:+ dq +:+ "normal" +:+ dq);
         set_Optional true;
         set_Default (VString "normal");
         set_ValidateFunc (StringInSlice memoryLevels false)]);
      ("memory_shares_value", lit [
         set_Type TypeInt;
         set_Description "Memory shares value, only required when shares level is 'normal'";
         set_Optional true;
         set_Default (VInt 0)])]))]).

Definition GetSddcClusterSchema : Builder Schema :=
  let+ resource_pool := getResourcePoolSchema in
  built (lit [
    set_Type TypeList;
    set_Required true;
    set_MaxItems 1;
    set_Elem (inr (list_to_map [
      ("cluster_name", lit [
         set_Type TypeString;
         set_Description "vCenter Cluster Name";
         set_Required true]);
      ("cluster_evc_mode", lit [
         set_Type TypeString;
         set_Description "vCenter cluster EVC mode";
         set_Optional true]);
      ("host_failures_to_tolerate", lit [
         set_Type TypeInt;
         set_Description "Host failures to tolerate. In between 0 and 3";
         set_Optional true;
         set_ValidateFunc (IntBetween 0 3)]);
      ("resource_pool", resource_pool);
      ("vm_folder", lit [
         set_Type TypeMap;
         set_Description "Virtual Machine folders map. One among: MANAGEMENT, NETWORKING";
         set_Optional true;
         set_Elem (inl (lit [set_Type TypeString]))])]))]).




(** ** The destroy check of the acceptance test *)

(** [terraform.ResourceState], with what the check reads: the type and
    the attributes of the primary instance ([Primary] is a pointer, nil as
    [None]).  The resources of a module are taken to be non-nil. *)
Record ResourceState : Type := mkResourceState {
  rs_Type : string;
  rs_Primary : option (gmap string string) }.

(** What the check tells apart in the answer of [Domains.GetDomain]: a
    non-nil error; a nil error with a nil result or a nil payload; a nil
    error with a payload. *)
Inductive domain_reply : Type :=
| ReplyError
| ReplyNothing
| ReplyPayload.

(** [attributes[k]] on a [map[string]string]: the empty string when the
    key is absent. *)
Definition attribute (attributes : gmap string string) (k : string) : string :=
  default "" (attributes !! k).

Section DestroyCheck.

(** The SDK call, as a function of the domain id, and the verb [%q] of
    [fmt] are taken as given.  The line the check logs on an error of the
    call is not part of its result. *)
Variable GetDomain : string -> domain_reply.
Variable quoted : string -> string.

(** The [for ... range] loop over the resources, in the order in which the
    runtime visits the map. *)
Fixpoint check_resources (resources : list ResourceState) : outcome unit :=
  match resources with
  | [] => Ok tt
  | rs :: rest =>
      if negb (String.eqb (rs_Type rs) "vcf_domain") then check_resources rest
      else
        match rs_Primary rs with
        | None => Panic
        | Some attributes =>
            let domainId := attribute attributes "id" in
            match GetDomain domainId with
            | ReplyError => Ok tt
            | ReplyPayload =>
                Err ("domain with id " +:+ quoted domainId +:+ " not destroyed")
            | ReplyNothing => check_resources rest
            end
        end
  end.

End DestroyCheck.

(** [meta] is the provider's [Meta()] when it is a [*SddcManagerClient]
    (the type assertion panics otherwise), given by its [GetDomain];
    [rootModule] is [state.RootModule()], nil when the state has no root
    module.  [Ok tt] is the nil error. *)
Definition testCheckVcfDomainDestroy (meta : option (string -> domain_reply))
    (quoted : string -> string) (rootModule : option (list ResourceState))
    : outcome unit :=
  match meta with
  | None => Panic
  | Some GetDomain =>
      match rootModule with
      | None => Panic
      | Some resources => check_resources GetDomain quoted resources
      end
  end.

(** ** Concrete inputs *)

(** Stand-ins for the functions taken as given, and attribute maps, on
    which the converters are run. *)
Module Sample.

(** Nil, the empty string, an empty list and an empty or nil map count as
    empty. *)
Definition IsEmpty (v : value) : bool :=
  match v with
  | VNil => true
  | VString s => len0 s
  | VList l => Nat.eqb (length l) 0
  | VMap None | VStrMap None => true
  | VMap (Some m) => bool_decide (m = ∅)
  | VStrMap (Some m) => bool_decide (m = ∅)
  | _ => false
  end.

(** A node spec reduced to the node's name. *)
Definition TryConvertToNsxManagerNodeSpec (object : gomap) : outcome string :=
  match at_key object "name" with
  | VString s =>
      if len0 s then Err "cannot convert to NsxManagerSpec, name is required"
      else Ok s
  | _ => Panic
  end.

Definition node (name ip : string) : value :=
  VMap (Some {[ "name" := VString name; "ip_address" := VString ip ]}).

(** The [nsx_configuration] block of the acceptance test: every field
    [NsxSchema] declares Required, and [form_factor]. *)
Definition nsx_configuration : gmap string value :=
  list_to_map [
    ("vip", VString "10.0.0.66");
    ("vip_fqdn", VString "sfo-w01-nsx01.sfo.rainpole.io");
    ("nsx_manager_admin_password", VString "Nqkva_parola1");
    ("form_factor", VString "small");
    ("license_key", VString "AAAAA-BBBBB-CCCCC-DDDDD-EEEEE");
    ("nsx_manager_node",
       VList [node "sfo-w01-nsx01a" "10.0.0.62";
              node "sfo-w01-nsx01b" "10.0.0.63";
              node "sfo-w01-nsx01c" "10.0.0.64"])].

(** Every field of [NsxSchema], each non-empty. *)
Definition nsx_full : gmap string value :=
  <["nsx_manager_audit_password" := VString "Nqkva_parola2"]> nsx_configuration.

(** [nsx_full] with an entry under the key the converter tests. *)
Definition nsx_accepted : gmap string value :=
  <["nsx_manager" := VBool true]> nsx_full.

(** [nsx_accepted] without its optional fields. *)
Definition nsx_minimal : gmap string value :=
  delete "form_factor" (delete "nsx_manager_audit_password" nsx_accepted).

(** An empty [vip] and an empty node list. *)
Definition nsx_empty_vip : gmap string value :=
  {[ "vip" := VString ""; "nsx_manager_node" := VList [] ]}.

(** [nsx_accepted] with an empty licence key. *)
Definition nsx_empty_license : gmap string value :=
  <["license_key" := VString ""]> nsx_accepted.

(** Everything before the node list in order, and an empty node list. *)
Definition nsx_no_nodes : gmap string value :=
  <["nsx_manager_node" := VList []]> nsx_accepted.

Definition vmnic_id_only : gmap string value := {[ "id" := VString "vmnic0" ]}.

Definition cluster_ref : NsxTClusterReference :=
  mkNsxTClusterReference "c1fd6bb7" "10.0.0.66" "sfo-w01-nsx01.sfo.rainpole.io".

(** What [nsx_accepted] converts to. *)
Definition nsx_accepted_spec : NsxTSpec string :=
  {| FormFactor := "small";
     LicenseKey := "AAAAA-BBBBB-CCCCC-DDDDD-EEEEE";
     NsxManagerAdminPassword := "Nqkva_parola1";
     NsxManagerAuditPassword := "Nqkva_parola2";
     NsxManagerSpecs := ["sfo-w01-nsx01a"; "sfo-w01-nsx01b"; "sfo-w01-nsx01c"];
     Vip := Some "10.0.0.66";
     VipFqdn := Some "sfo-w01-nsx01.sfo.rainpole.io" |}.

(** What [nsx_minimal] converts to. *)
Definition nsx_minimal_spec : NsxTSpec string :=
  {| FormFactor := "";
     LicenseKey := "AAAAA-BBBBB-CCCCC-DDDDD-EEEEE";
     NsxManagerAdminPassword := "Nqkva_parola1";
     NsxManagerAuditPassword := "";
     NsxManagerSpecs := ["sfo-w01-nsx01a"; "sfo-w01-nsx01b"; "sfo-w01-nsx01c"];
     Vip := Some "10.0.0.66";
     VipFqdn := Some "sfo-w01-nsx01.sfo.rainpole.io" |}.

(** Pointer helpers: nil for the nil interface, else the address of the
    asserted value. *)
Definition ToStringPointer (object : value) : outcome (option string) :=
  match object with
  | VNil => Ok None
  | VString s => Ok (Some s)
  | _ => Panic
  end.

Definition ToInt32Pointer (object : value) : outcome (option Z) :=
  match object with
  | VNil => Ok None
  | VInt z => Ok (Some (int32_of_int z))
  | _ => Panic
  end.

Definition ToBoolPointer (object : value) : outcome (option bool) :=
  match object with
  | VNil => Ok None
  | VBool b => Ok (Some b)
  | _ => Panic
  end.

(** [int64(f)] as amd64 computes it: truncation toward zero of a finite
    [f] that fits an [int64]; the smallest [int64] for any other finite
    [f], for a NaN and for an infinity. *)
Definition int64_of_float64 (f : spec_float) : Z :=
  match f with
  | S754_zero _ => 0
  | S754_finite sign mantissa exponent =>
      let magnitude := Z.shiftl (Z.pos mantissa) exponent in
      let truncated := (if sign then - magnitude else magnitude)%Z in
      if ((- 9223372036854775808 <=? truncated)
          && (truncated <? 9223372036854775808))%Z
      then truncated
      else - 9223372036854775808
  | _ => - 9223372036854775808
  end.

(** The float [n], for an integer [n]. *)
Definition float_of_Z (n : Z) : spec_float :=
  match n with
  | Z0 => S754_zero false
  | Z.pos p => S754_finite false p 0
  | Z.neg p => S754_finite true p 0
  end.

(** One resource pool, every attribute at its schema default or set. *)
Definition resource_pool : value :=
  VMap (Some (list_to_map [
    ("name", VString "sfo-m01-rp-sddc-mgmt");
    ("type", VString "management");
    ("cpu_limit", VFloat (float_of_Z (-1)));
    ("cpu_reservation_expandable", VBool true);
    ("cpu_reservation_mhz", VFloat (float_of_Z 0));
    ("cpu_reservation_percentage", VInt 0);
    ("cpu_shares_level", VString "normal");
    ("cpu_shares_value", VInt 0);
    ("memory_limit", VFloat (float_of_Z (-1)));
    ("memory_reservation_expandable", VBool true);
    ("memory_reservation_mb", VFloat (float_of_Z 2048));
    ("memory_reservation_percentage", VInt 0);
    ("memory_shares_level", VString "normal");
    ("memory_shares_value", VInt 0)])).



(** A tree for [NsxManagerNodeSchema]. *)
Definition node_schema : Resource :=
  {[ "name" := lit [set_Type TypeString; set_Required true] ]}.

End Sample.

(** Inputs for the runs of the further properties. *)
Module Fixture.

Definition vmnic_full : gmap string value :=
  list_to_map [
    ("id", VString "vmnic0");
    ("uplink", VString "uplink1");
    ("vds_name", VString "sfo-w01-cl01-vds01")].

Definition vmnic_full_result : VMNic :=
  mkVMNic "vmnic0" "uplink1" "sfo-w01-cl01-vds01".

(** A node without a name, which the node converter of [Sample] turns
    down. *)
Definition nameless_node : gomap := Some {[ "name" := VString "" ]}.

(** [Sample.nsx_accepted] with the nameless node in second place. *)
Definition nsx_bad_node : gmap string value :=
  <["nsx_manager_node" :=
      VList [Sample.node "sfo-w01-nsx01a" "10.0.0.62";
             VMap nameless_node;
             Sample.node "sfo-w01-nsx01c" "10.0.0.64"]]> Sample.nsx_accepted.

(** The map of [Sample.resource_pool], with [cpu_shares_value] one past
    the largest [int32]. *)
Definition pool_overflow : gomap :=
  match Sample.resource_pool with
  | VMap (Some m) => Some (<["cpu_shares_value" := VInt 2147483648]> m)
  | _ => None
  end.

Definition pool_overflow_spec : ResourcePoolSpec :=
  {| CPULimit := -1;
     CPUReservationExpandable := true;
     CPUReservationMhz := 0;
     CPUReservationPercentage := Some 0%Z;
     CPUSharesValue := -2147483648;
     CPUSharesLevel := "normal";
     MemoryLimit := -1;
     MemorySharesLevel := "normal";
     MemoryReservationPercentage := Some 0%Z;
     MemoryReservationExpandable := Some true;
     MemoryReservationMb := 2048;
     MemorySharesValue := 0;
     Pool_Name := Some "sfo-m01-rp-sddc-mgmt";
     Pool_Type := "management" |}.

(** The map of [Sample.resource_pool] and its spec. *)
Definition pool_data : gomap :=
  match Sample.resource_pool with
  | VMap data => data
  | _ => None
  end.

Definition pool_spec : ResourcePoolSpec :=
  {| CPULimit := -1;
     CPUReservationExpandable := true;
     CPUReservationMhz := 0;
     CPUReservationPercentage := Some 0%Z;
     CPUSharesValue := 0;
     CPUSharesLevel := "normal";
     MemoryLimit := -1;
     MemorySharesLevel := "normal";
     MemoryReservationPercentage := Some 0%Z;
     MemoryReservationExpandable := Some true;
     MemoryReservationMb := 2048;
     MemorySharesValue := 0;
     Pool_Name := Some "sfo-m01-rp-sddc-mgmt";
     Pool_Type := "management" |}.

(** A cluster whose [vm_folder] holds one folder, in the map type of the
    schema. *)
Definition cluster_with_folder : gomap :=
  Some (list_to_map [
    ("cluster_name", VString "sfo-m01-cl01");
    ("cluster_evc_mode", VString "");
    ("host_failures_to_tolerate", VInt 1);
    ("resource_pool", VList []);
    ("vm_folder", VMap (Some {[ "MANAGEMENT" := VString "sfo-m01-fd-mgmt" ]}))]).

(** An SDK that no longer finds the domain [gone], fails on [down] and
    still finds every other one; [%q] on ids that need no escape. *)
Definition GetDomain (id : string) : domain_reply :=
  if String.eqb id "gone" then ReplyNothing
  else if String.eqb id "down" then ReplyError
  else ReplyPayload.

Definition quoted (s : string) : string := dq +:+ s +:+ dq.

Definition domain (id : string) : ResourceState :=
  mkResourceState "vcf_domain" (Some {[ "id" := id ]}).


End Fixture.

(** ** Shapes of an attribute map *)

(** The entry at [k] is a non-empty string. *)
Definition nonempty_string (m : gmap string value) (k : string) : Prop :=
  exists s, m !! k = Some (VString s) /\ s <> "".

(** The entry at [k] is absent, or the empty string, or a value that
    [IsEmpty] accepts. *)
Definition absent_or_empty (IsEmpty : value -> bool) (m : gmap string value)
    (k : string) : Prop :=
  m !! k = None \/ m !! k = Some (VString "")
  \/ exists v, m !! k = Some v /\ IsEmpty v = true.

(** The entry at [k] is absent, or a value that [IsEmpty] accepts, or a
    string: what the assignment of an optional field goes through. *)
Definition absent_empty_or_string (IsEmpty : value -> bool)
    (m : gmap string value) (k : string) : Prop :=
  m !! k = None
  \/ exists v, m !! k = Some v /\ (IsEmpty v = true \/ exists s, v = VString s).

(** The value an optional string field ends with: [set s] when the entry
    at [k] is present, not empty for [IsEmpty], and the string [s]. *)
Definition assigned {R : Type} (IsEmpty : value -> bool) (m : gmap string value)
    (k : string) (set : string -> R) (r : R) : R :=
  if present (Some m) k && negb (IsEmpty (at_key (Some m) k))
  then match at_key (Some m) k with VString s => set s | _ => r end
  else r.

(** The outcome is a returned error whose message contains [field]. *)
Definition fails_naming {A : Type} (o : outcome A) (field : string) : Prop :=
  exists msg, o = Err msg /\ contains field msg = true.

(** ** Shapes of the converters' runs *)

(** The entry at [k] is present, not empty for [IsEmpty], and no string:
    the assignment of an optional field panics on it. *)
Definition wrongly_typed (IsEmpty : value -> bool) (m : gmap string value)
    (k : string) : Prop :=
  exists v, m !! k = Some v /\ IsEmpty v = false /\ forall s, v <> VString s.

(** The entry at [k] is absent or is no string. *)
Definition not_a_string (m : gmap string value) (k : string) : Prop :=
  forall s, m !! k <> Some (VString s).

(** [entry] is a map that the node converter turns into [s]. *)
Definition node_converts {NsxManagerSpec : Type}
    (conv : gomap -> outcome NsxManagerSpec) (entry : value) (s : NsxManagerSpec)
    : Prop :=
  exists n, entry = VMap n /\ conv n = Ok s.

(** The spec [TryConvertToNsxSpec] returns from the four required strings,
    the optional entries of [m] and the converted nodes. *)
Definition nsx_spec_of (IsEmpty : value -> bool) (NsxManagerSpec : Type)
    (m : gmap string value) (vip vipFqdn password key : string)
    (specs : list NsxManagerSpec) : NsxTSpec NsxManagerSpec :=
  set_NsxManagerSpecs specs
    (assigned IsEmpty m "nsx_manager_audit_password"
       (fun s => set_NsxManagerAuditPassword s
                   (assigned IsEmpty m "form_factor"
                      (fun s => set_FormFactor s
                                  (mkNsxTSpec "" key password "" [] (Some vip) (Some vipFqdn)))
                      (mkNsxTSpec "" key password "" [] (Some vip) (Some vipFqdn))))
       (assigned IsEmpty m "form_factor"
          (fun s => set_FormFactor s
                      (mkNsxTSpec "" key password "" [] (Some vip) (Some vipFqdn)))
          (mkNsxTSpec "" key password "" [] (Some vip) (Some vipFqdn)))).

(** Everything [TryConvertToNsxSpec] checks before it walks the node list. *)
Definition nsx_checks_pass (IsEmpty : value -> bool) (m : gmap string value)
    (vip vipFqdn password key : string) (nodes : list value) : Prop :=
  (m !! "vip" = Some (VString vip) /\ vip <> "")
  /\ (m !! "vip_fqdn" = Some (VString vipFqdn) /\ vipFqdn <> "")
  /\ at_key (Some m) "nsx_manager" <> VNil
  /\ (m !! "nsx_manager_admin_password" = Some (VString password) /\ password <> "")
  /\ (m !! "license_key" = Some (VString key) /\ key <> "")
  /\ absent_empty_or_string IsEmpty m "form_factor"
  /\ absent_empty_or_string IsEmpty m "nsx_manager_audit_password"
  /\ m !! "nsx_manager_node" = Some (VList nodes)
  /\ nodes <> [].

(** The messages [TryConvertToNsxSpec] itself returns. *)
Definition nsx_messages : list string :=
  ["cannot convert to NsxTSpec, object is nil";
   "cannot convert to NsxTSpec, vip is required";
   "cannot convert to NsxTSpec, vip_fqdn is required";
   "cannot convert to NsxTSpec, nsx_manager is required";
   "cannot convert to NsxTSpec, nsx_manager_admin_password is required";
   "cannot convert to NsxTSpec, license_key is required";
   "cannot convert to NsxTSpec, at least one entry for nsx_manager is required"].

(** The keys, in order, that the converters index their argument with. *)
Definition vmnic_keys : list string := ["id"; "uplink"; "vds_name"].
Definition nsx_keys : list string :=
  ["vip"; "vip_fqdn"; "nsx_manager"; "nsx_manager_admin_password"; "license_key";
   "form_factor"; "nsx_manager_audit_password"; "nsx_manager_node"].
Definition pool_keys : list string :=
  ["cpu_limit"; "cpu_reservation_expandable"; "cpu_reservation_mhz";
   "cpu_reservation_percentage"; "cpu_shares_level"; "cpu_shares_value";
   "memory_limit"; "memory_reservation_percentage"; "memory_reservation_expandable";
   "memory_reservation_mb"; "memory_shares_level"; "memory_shares_value";
   "name"; "type"].

(** The attributes of a pool that [resource_pool_spec] asserts itself,
    without a pointer helper. *)
Definition asserted_pool_keys : list string :=
  ["cpu_limit"; "cpu_reservation_expandable"; "cpu_reservation_mhz";
   "cpu_shares_level"; "cpu_shares_value"; "memory_limit"; "memory_reservation_mb";
   "memory_shares_level"; "memory_shares_value"; "type"].

(** The range of an [int32]. *)
Definition in_int32 (z : Z) : Prop := (-2147483648 <= z < 2147483648)%Z.

(** The entries of a pool map that [resource_pool_spec] goes through, and
    the spec it builds from them. *)
Definition pool_entries (ToStringPointer : value -> outcome (option string))
    (ToInt32Pointer : value -> outcome (option Z))
    (ToBoolPointer : value -> outcome (option bool))
    (int64_of_float64 : spec_float -> Z)
    (data : gomap) (spec : ResourcePoolSpec) : Prop :=
  exists cpuLimit cpuReservationMhz memoryLimit memoryReservationMB
         cpuSharesValue memorySharesValue,
    at_key data "cpu_limit" = VFloat cpuLimit
    /\ at_key data "cpu_reservation_expandable"
       = VBool (CPUReservationExpandable spec)
    /\ at_key data "cpu_reservation_mhz" = VFloat cpuReservationMhz
    /\ ToInt32Pointer (at_key data "cpu_reservation_percentage")
       = Ok (CPUReservationPercentage spec)
    /\ at_key data "cpu_shares_level" = VString (CPUSharesLevel spec)
    /\ at_key data "cpu_shares_value" = VInt cpuSharesValue
    /\ at_key data "memory_limit" = VFloat memoryLimit
    /\ ToInt32Pointer (at_key data "memory_reservation_percentage")
       = Ok (MemoryReservationPercentage spec)
    /\ ToBoolPointer (at_key data "memory_reservation_expandable")
       = Ok (MemoryReservationExpandable spec)
    /\ at_key data "memory_reservation_mb" = VFloat memoryReservationMB
    /\ at_key data "memory_shares_level" = VString (MemorySharesLevel spec)
    /\ at_key data "memory_shares_value" = VInt memorySharesValue
    /\ ToStringPointer (at_key data "name") = Ok (Pool_Name spec)
    /\ at_key data "type" = VString (Pool_Type spec)
    /\ CPULimit spec = int64_of_float64 cpuLimit
    /\ CPUReservationMhz spec = int64_of_float64 cpuReservationMhz
    /\ MemoryLimit spec = int64_of_float64 memoryLimit
    /\ MemoryReservationMb spec = int64_of_float64 memoryReservationMB
    /\ CPUSharesValue spec = int32_of_int cpuSharesValue
    /\ MemorySharesValue spec = int32_of_int memorySharesValue.

(** The entries of a cluster map that [GetSddcClusterSpecFromSchema] goes
    through, and the spec it builds from them. *)
Definition cluster_entries (IsEmpty : value -> bool)
    (ToStringPointer : value -> outcome (option string))
    (ToInt32Pointer : value -> outcome (option Z))
    (ToBoolPointer : value -> outcome (option bool))
    (int64_of_float64 : spec_float -> Z)
    (data : gomap) (spec : SDDCClusterSpec) : Prop :=
  ToStringPointer (at_key data "cluster_name") = Ok (ClusterName spec)
  /\ at_key data "cluster_evc_mode" = VString (ClusterEvcMode spec)
  /\ ToInt32Pointer (at_key data "host_failures_to_tolerate")
     = Ok (HostFailuresToTolerate spec)
  /\ (if IsEmpty (at_key data "vm_folder")
      then VMFolders spec = None
      else at_key data "vm_folder" = VStrMap (VMFolders spec))
  /\ exists pools,
       at_key data "resource_pool" = VList pools
       /\ Forall2 (fun pool s =>
                     result (resource_pool_spec ToStringPointer ToInt32Pointer
                               ToBoolPointer int64_of_float64 pool) = Ok s)
                  pools (ResourcePoolSpecs spec).

(** The Go type in which the plugin SDK hands over a value of a schema
    type: [TypeMap] as [map[string]interface{}], [TypeList] as
    [[]interface{}]. *)
Definition has_type (t : ValueType) (v : value) : Prop :=
  match t, v with
  | TypeString, VString _ | TypeInt, VInt _ | TypeFloat, VFloat _
  | TypeBool, VBool _ | TypeList, VList _ | TypeMap, VMap _ => True
  | _, _ => False
  end.

(** The resource under [Elem], when it is one. *)
Definition element_resource (sch : Schema) : Resource :=
  match Elem sch with
  | Some (inr r) => r
  | _ => ∅
  end.

(** A resource the destroy check passes over: not a domain, or a domain
    that the SDK no longer finds. *)
Definition passed_over (GetDomain : string -> domain_reply) (rs : ResourceState) : Prop :=
  rs_Type rs <> "vcf_domain"
  \/ exists attributes,
       rs_Primary rs = Some attributes
       /\ GetDomain (attribute attributes "id") = ReplyNothing.

(** A domain resource for which the SDK answers [reply]. *)
Definition domain_answering (GetDomain : string -> domain_reply)
    (rs : ResourceState) (reply : domain_reply) : Prop :=
  rs_Type rs = "vcf_domain"
  /\ exists attributes,
       rs_Primary rs = Some attributes
       /\ GetDomain (attribute attributes "id") = reply.

(** The id the check reads off a resource. *)
Definition domain_id (rs : ResourceState) : string :=
  match rs_Primary rs with
  | Some attributes => attribute attributes "id"
  | None => ""
  end.

(** ** Facts about the monad and the map primitives *)

Section MonadFacts.
Context {A B : Type}.

Lemma result_bind (c : M A) (k : A -> M B) :
  result (bind c k) =
  match result c with
  | Ok a => result (k a)
  | Err msg => Err msg
  | Panic => Panic
  end.
Proof.
  destruct c as [[a | msg |] l]; unfold bind, result; simpl; try reflexivity.
  destruct (k a); reflexivity.
Qed.

Lemma bind_Ok_inv (c : M A) (k : A -> M B) (b : B) :
  result (bind c k) = Ok b ->
  exists a, result c = Ok a /\ result (k a) = Ok b.
Proof.
  rewrite result_bind. destruct (result c) as [a | msg |]; try discriminate.
  intros H. exists a. split; [reflexivity | exact H].
Qed.

Lemma bind_step (a : A) (l : list string) (k : A -> M B) :
  result (bind (Ok a, l) k) = result (k a).
Proof. rewrite result_bind. reflexivity. Qed.

Lemma bind_Err (c : M A) (k : A -> M B) (msg : string) :
  result c = Err msg -> result (bind c k) = Err msg.
Proof. intros H. rewrite result_bind, H. reflexivity. Qed.

Lemma bind_Panic (c : M A) (k : A -> M B) :
  result c = Panic -> result (bind c k) = Panic.
Proof. intros H. rewrite result_bind, H. reflexivity. Qed.

Lemma bind_Ok (c : M A) (k : A -> M B) (a : A) :
  result c = Ok a -> result (bind c k) = result (k a).
Proof. intros H. rewrite result_bind, H. reflexivity. Qed.

End MonadFacts.

Lemma at_key_Some (m : gmap string value) (k : string) (v : value) :
  m !! k = Some v -> at_key (Some m) k = v.
Proof. intros H. unfold at_key. rewrite H. reflexivity. Qed.

Lemma at_key_None (m : gmap string value) (k : string) :
  m !! k = None -> at_key (Some m) k = VNil.
Proof. intros H. unfold at_key. rewrite H. reflexivity. Qed.

Lemma at_key_lookup (m : gmap string value) (k : string) (v : value) :
  at_key (Some m) k = v -> v <> VNil -> m !! k = Some v.
Proof.
  unfold at_key. destruct (m !! k) as [w |]; simpl; intros <- Hv.
  - reflexivity.
  - contradiction.
Qed.

Lemma index_string_Ok (object : gomap) (k s : string) :
  result (index_string object k) = Ok s -> at_key object k = VString s.
Proof.
  unfold index_string, index. rewrite bind_step.
  destruct (at_key object k); try discriminate.
  intros [= ->]. reflexivity.
Qed.

Lemma index_string_is (object : gomap) (k s : string) :
  at_key object k = VString s -> result (index_string object k) = Ok s.
Proof.
  intros H. unfold index_string, index. rewrite bind_step, H. reflexivity.
Qed.

Lemma index_string_nil (object : gomap) (k : string) :
  at_key object k = VNil -> result (index_string object k) = Panic.
Proof.
  intros H. unfold index_string, index. rewrite bind_step, H. reflexivity.
Qed.

Lemma index_list_Ok (object : gomap) (k : string) (l : list value) :
  result (index_list object k) = Ok l -> at_key object k = VList l.
Proof.
  unfold index_list, index. rewrite bind_step.
  destruct (at_key object k); try discriminate.
  intros [= ->]. reflexivity.
Qed.

Lemma index_list_is (object : gomap) (k : string) (l : list value) :
  at_key object k = VList l -> result (index_list object k) = Ok l.
Proof.
  intros H. unfold index_list, index. rewrite bind_step, H. reflexivity.
Qed.

Lemma len0_false (s : string) : len0 s = false <-> s <> "".
Proof. destruct s; unfold len0; simpl; split; intros H; congruence. Qed.

(** ** The nil map and the flattener *)

Section NilAndFlatten.
Variable IsEmpty : value -> bool.
Variable NsxManagerSpec : Type.
Variable TryConvertToNsxManagerNodeSpec : gomap -> outcome NsxManagerSpec.

(** C10.  On the nil map both converters return a nil result with a
    non-nil error, and they index the map with no key at all. *)
Theorem converters_reject_nil_map_unread :
  result (TryConvertToVmNic IsEmpty None)
    = Err "cannot convert to VMNic, object is nil"
  /\ reads (TryConvertToVmNic IsEmpty None) = []
  /\ result (TryConvertToNsxSpec IsEmpty TryConvertToNsxManagerNodeSpec None)
    = Err "cannot convert to NsxTSpec, object is nil"
  /\ reads (TryConvertToNsxSpec IsEmpty TryConvertToNsxManagerNodeSpec None) = [].
Proof. repeat split. Qed.

(** C8.  [FlattenNsxClusterRef] never returns the nil pointer nor a pointer
    to the nil map; for the nil struct the map is empty, otherwise its keys
    are exactly id, vip and vip_fqdn, bound to the struct's ID, Vip and
    VipFqdn. *)
Theorem FlattenNsxClusterRef_map (nsxClusterRef : option NsxTClusterReference) :
  exists m : gmap string value,
    FlattenNsxClusterRef nsxClusterRef = Some (Some m) /\
    match nsxClusterRef with
    | None => m = ∅
    | Some r =>
        dom m = {[ "id"; "vip"; "vip_fqdn" ]}
        /\ m !! "id" = Some (VString (Ref_ID r))
        /\ m !! "vip" = Some (VString (Ref_Vip r))
        /\ m !! "vip_fqdn" = Some (VString (Ref_VipFqdn r))
    end.
Proof.
  destruct nsxClusterRef as [r |]; simpl.
  - eexists. split; [reflexivity |].
    split; [| split; [| split]].
    + rewrite !dom_insert_L, dom_empty_L. set_solver.
    + rewrite lookup_insert_ne by discriminate.
      rewrite lookup_insert_ne by discriminate.
      apply lookup_insert_eq.
    + rewrite lookup_insert_ne by discriminate.
      apply lookup_insert_eq.
    + apply lookup_insert_eq.
  - exists ∅. split; reflexivity.
Qed.

End NilAndFlatten.

(** ** The schema builders *)

Section BuilderFacts.
Variable node : Resource.








End BuilderFacts.

(** ** The two converters *)

Section ConverterFacts.
Variable IsEmpty : value -> bool.
Variable NsxManagerSpec : Type.
Variable TryConvertToNsxManagerNodeSpec : gomap -> outcome NsxManagerSpec.

Lemma index_ok_Ok (object : gomap) (k : string) (p : value * bool) :
  result (index_ok object k) = Ok p -> p = (at_key object k, present object k).
Proof. intros [= <-]. reflexivity. Qed.

Lemma optional_field_Ok {R : Type} (v : value) (ok : bool) (set : string -> R) (r r' : R) :
  result (if ok && negb (IsEmpty v)
          then let* s := as_string v in ret (set s)
          else ret r) = Ok r' ->
  (ok = true /\ IsEmpty v = false /\ exists s, v = VString s /\ r' = set s)
  \/ ((ok = false \/ IsEmpty v = true) /\ r' = r).
Proof.
  destruct ok; simpl.
  - destruct (IsEmpty v); simpl.
    + intros [= <-]. right. split; [right |]; reflexivity.
    + intros H. apply bind_Ok_inv in H as (s & Hs & H).
      destruct v; try discriminate Hs. injection Hs as <-. injection H as <-.
      left. repeat split. eexists. split; reflexivity.
  - intros [= <-]. right. split; [left |]; reflexivity.
Qed.

Lemma present_false_iff (m : gmap string value) (k : string) :
  present (Some m) k = false <-> m !! k = None.
Proof. unfold present. destruct (m !! k); split; congruence. Qed.

Lemma optional_field_cases {R : Type} (v : value) (ok : bool) (set : string -> R) (r r' : R) :
  result (if ok && negb (IsEmpty v)
          then let* s := as_string v in ret (set s)
          else ret r) = Ok r' ->
  r' = r \/ exists s, r' = set s.
Proof.
  intros H. apply optional_field_Ok in H as [(_ & _ & s & _ & ->) | (_ & ->)].
  - right. exists s. reflexivity.
  - left. reflexivity.
Qed.

Lemma optional_field_zero {R : Type} (m : gmap string value) (k : string)
    (set : string -> R) (r r' : R) :
  result (if present (Some m) k && negb (IsEmpty (at_key (Some m) k))
          then let* s := as_string (at_key (Some m) k) in ret (set s)
          else ret r) = Ok r' ->
  absent_or_empty IsEmpty m k ->
  r' = r \/ r' = set "".
Proof.
  intros H Hk.
  apply optional_field_Ok in H as [(Hok & Hne & s & Hv & ->) | (_ & ->)];
    [| left; reflexivity].
  destruct Hk as [Hk | [Hk | (v & Hk & Hv')]].
  - apply present_false_iff in Hk. congruence.
  - apply at_key_Some in Hk. rewrite Hk in Hv. injection Hv as <-.
    right. reflexivity.
  - apply at_key_Some in Hk. rewrite Hk in Hne. congruence.
Qed.

Lemma vmnic_optional (m : gmap string value) (nic : VMNic) :
  result (TryConvertToVmNic IsEmpty (Some m)) = Ok nic ->
  (absent_or_empty IsEmpty m "uplink" -> VMNic_Uplink nic = "")
  /\ (absent_or_empty IsEmpty m "vds_name" -> VMNic_VdsName nic = "").
Proof.
  unfold TryConvertToVmNic. intros H.
  apply bind_Ok_inv in H as (? & _ & H).
  apply bind_Ok_inv in H as (id & _ & H).
  apply bind_Ok_inv in H as (? & _ & H).
  apply bind_Ok_inv in H as (p & Hp & H).
  apply index_ok_Ok in Hp. subst p.
  apply bind_Ok_inv in H as (r1 & H1 & H).
  apply bind_Ok_inv in H as (p & Hp & H).
  apply index_ok_Ok in Hp. subst p.
  apply bind_Ok_inv in H as (r2 & H2 & H).
  injection H as <-.
  split; intros Hk.
  - apply optional_field_cases in H2 as [-> | (s2 & ->)];
      apply (optional_field_zero _ _ _ _ _ H1) in Hk as [-> | ->]; reflexivity.
  - apply (optional_field_zero _ _ _ _ _ H2) in Hk as [-> | ->];
      [| reflexivity].
    apply optional_field_cases in H1 as [-> | (s1 & ->)]; reflexivity.
Qed.

(** What a successful run of [TryConvertToNsxSpec] went through. *)
Lemma TryConvertToNsxSpec_Ok_inv (m : gmap string value) (spec : NsxTSpec NsxManagerSpec) :
  result (TryConvertToNsxSpec IsEmpty TryConvertToNsxManagerNodeSpec (Some m)) = Ok spec ->
  exists vip vipFqdn password key r1 r2 nodes specs,
    (at_key (Some m) "vip" = VString vip
     /\ at_key (Some m) "vip_fqdn" = VString vipFqdn
     /\ at_key (Some m) "nsx_manager_admin_password" = VString password
     /\ at_key (Some m) "license_key" = VString key
     /\ at_key (Some m) "nsx_manager_node" = VList nodes)
    /\ (r1 = mkNsxTSpec "" key password "" [] (Some vip) (Some vipFqdn)
        \/ exists s, r1 = set_FormFactor s
                            (mkNsxTSpec "" key password "" [] (Some vip) (Some vipFqdn)))
    /\ (absent_or_empty IsEmpty m "form_factor" -> FormFactor r1 = "")
    /\ (r2 = r1 \/ exists s, r2 = set_NsxManagerAuditPassword s r1)
    /\ (absent_or_empty IsEmpty m "nsx_manager_audit_password" ->
        r2 = r1 \/ r2 = set_NsxManagerAuditPassword "" r1)
    /\ result (convert_nsx_manager_list TryConvertToNsxManagerNodeSpec nodes []) = Ok specs
    /\ spec = set_NsxManagerSpecs specs r2.
Proof.
  unfold TryConvertToNsxSpec. intros H.
  apply bind_Ok_inv in H as (? & _ & H).
  apply bind_Ok_inv in H as (vip & Hvip & H).
  apply bind_Ok_inv in H as (? & _ & H).
  apply bind_Ok_inv in H as (vipFqdn & Hfqdn & H).
  apply bind_Ok_inv in H as (? & _ & H).
  apply bind_Ok_inv in H as (? & _ & H).
  apply bind_Ok_inv in H as (? & _ & H).
  apply bind_Ok_inv in H as (password & Hpw & H).
  apply bind_Ok_inv in H as (? & _ & H).
  apply bind_Ok_inv in H as (key & Hkey & H).
  apply bind_Ok_inv in H as (? & _ & H).
  apply bind_Ok_inv in H as (p & Hp & H).
  apply index_ok_Ok in Hp. subst p.
  apply bind_Ok_inv in H as (r1 & H1 & H).
  apply bind_Ok_inv in H as (p & Hp & H).
  apply index_ok_Ok in Hp. subst p.
  apply bind_Ok_inv in H as (r2 & H2 & H).
  apply bind_Ok_inv in H as (nodes & Hnodes & H).
  apply bind_Ok_inv in H as (? & _ & H).
  apply bind_Ok_inv in H as (specs & Hspecs & H).
  injection H as <-.
  apply index_string_Ok in Hvip, Hfqdn, Hpw, Hkey.
  apply index_list_Ok in Hnodes.
  exists vip, vipFqdn, password, key, r1, r2, nodes, specs.
  split; [auto |].
  split; [exact (optional_field_cases _ _ _ _ _ H1) |].
  split.
  { intros Hk. apply (optional_field_zero _ _ _ _ _ H1) in Hk as [-> | ->]; reflexivity. }
  split; [exact (optional_field_cases _ _ _ _ _ H2) |].
  split.
  { intros Hk. exact (optional_field_zero _ _ _ _ _ H2 Hk). }
  split; [exact Hspecs | reflexivity].
Qed.

Lemma convert_nsx_manager_list_Ok (nodes : list value) (acc specs : list NsxManagerSpec) :
  result (convert_nsx_manager_list TryConvertToNsxManagerNodeSpec nodes acc) = Ok specs ->
  exists new,
    specs = acc ++ new
    /\ Forall2 (fun entry s =>
                  exists n, entry = VMap n /\ TryConvertToNsxManagerNodeSpec n = Ok s)
               nodes new.
Proof.
  revert acc. induction nodes as [| entry rest IH]; intros acc H.
  - injection H as <-. exists []. split; [symmetry; apply app_nil_r | constructor].
  - cbn [convert_nsx_manager_list] in H.
    apply bind_Ok_inv in H as (n & Hn & H).
    apply bind_Ok_inv in H as (s & Hs & H).
    destruct entry; try discriminate Hn. injection Hn as <-.
    apply IH in H as (new & -> & Hall).
    exists (s :: new). split.
    + rewrite <- app_assoc. reflexivity.
    + constructor; [| exact Hall]. eexists. split; [reflexivity | exact Hs].
Qed.

(** C4.  When a conversion succeeds and an optional field ([uplink],
    [vds_name]; [form_factor], [nsx_manager_audit_password]) is absent from
    the map or empty in it, the field of the result is the empty string. *)
Theorem optional_fields_left_zero (m : gmap string value) :
  (forall nic,
     result (TryConvertToVmNic IsEmpty (Some m)) = Ok nic ->
     (absent_or_empty IsEmpty m "uplink" -> VMNic_Uplink nic = "")
     /\ (absent_or_empty IsEmpty m "vds_name" -> VMNic_VdsName nic = ""))
  /\ (forall spec,
        result (TryConvertToNsxSpec IsEmpty TryConvertToNsxManagerNodeSpec (Some m))
          = Ok spec ->
        (absent_or_empty IsEmpty m "form_factor" -> FormFactor spec = "")
        /\ (absent_or_empty IsEmpty m "nsx_manager_audit_password" ->
            NsxManagerAuditPassword spec = "")).
Proof.
  split; [apply vmnic_optional |].
  intros spec H.
  apply TryConvertToNsxSpec_Ok_inv in H
    as (vip & fqdn & pw & key & r1 & r2 & nodes & specs
        & _ & Hr1 & Hff & Hr2 & Haudit & _ & ->).
  split; intros Hk.
  - specialize (Hff Hk).
    destruct Hr2 as [-> | (s & ->)]; exact Hff.
  - destruct (Haudit Hk) as [-> | ->]; [| reflexivity].
    destruct Hr1 as [-> | (s & ->)]; reflexivity.
Qed.

(** C5.  When [TryConvertToNsxSpec] succeeds, [Vip], [VipFqdn],
    [NsxManagerAdminPassword] and [LicenseKey] of the result are the map's
    entries, and [NsxManagerSpecs] lists, entry by entry and in order, the
    conversions of the elements of [nsx_manager_node]. *)
Theorem TryConvertToNsxSpec_fields (m : gmap string value)
    (spec : NsxTSpec NsxManagerSpec) :
  result (TryConvertToNsxSpec IsEmpty TryConvertToNsxManagerNodeSpec (Some m)) = Ok spec ->
  (exists vip, m !! "vip" = Some (VString vip) /\ Vip spec = Some vip)
  /\ (exists vipFqdn,
        m !! "vip_fqdn" = Some (VString vipFqdn) /\ VipFqdn spec = Some vipFqdn)
  /\ m !! "nsx_manager_admin_password" = Some (VString (NsxManagerAdminPassword spec))
  /\ m !! "license_key" = Some (VString (LicenseKey spec))
  /\ exists nodes,
       m !! "nsx_manager_node" = Some (VList nodes)
       /\ Forall2 (fun entry s =>
                     exists n, entry = VMap n
                               /\ TryConvertToNsxManagerNodeSpec n = Ok s)
                  nodes (NsxManagerSpecs spec).
Proof.
  intros H.
  apply TryConvertToNsxSpec_Ok_inv in H
    as (vip & fqdn & pw & key & r1 & r2 & nodes & specs
        & (Hvip & Hfqdn & Hpw & Hkey & Hnodes) & Hr1 & _ & Hr2 & _ & Hspecs & ->).
  apply at_key_lookup in Hvip, Hfqdn, Hpw, Hkey, Hnodes; try discriminate.
  apply convert_nsx_manager_list_Ok in Hspecs as (new & -> & Hall).
  destruct Hr2 as [-> | (s2 & ->)]; destruct Hr1 as [-> | (s1 & ->)]; simpl;
    (split; [eauto |]; split; [eauto |]; split; [assumption |];
     split; [assumption |]; eauto).
Qed.

(** A required string that is present and non-empty passes its check. *)
Lemma required_string_passes {R : Type} (m : gmap string value) (k s msg : string)
    (rest : string -> M R) :
  m !! k = Some (VString s) -> s <> "" ->
  result (let* v := index_string (Some m) k in
          let* _ := return_error_if (len0 v) msg in
          rest v)
  = result (rest s).
Proof.
  intros Hk Hs.
  rewrite (bind_Ok _ _ s) by (apply index_string_is, at_key_Some, Hk).
  apply len0_false in Hs. rewrite Hs.
  rewrite (bind_Ok _ _ tt) by reflexivity. reflexivity.
Qed.

(** A required string that is present and empty fails its check with the
    check's message. *)
Lemma required_string_empty {R : Type} (m : gmap string value) (k msg : string)
    (rest : string -> M R) :
  m !! k = Some (VString "") ->
  result (let* v := index_string (Some m) k in
          let* _ := return_error_if (len0 v) msg in
          rest v)
  = Err msg.
Proof.
  intros Hk.
  rewrite (bind_Ok _ _ "") by (apply index_string_is, at_key_Some, Hk).
  apply bind_Err. reflexivity.
Qed.

(** A required string that is absent makes the assertion panic. *)
Lemma required_string_absent {R : Type} (m : gmap string value) (k msg : string)
    (rest : string -> M R) :
  m !! k = None ->
  result (let* v := index_string (Some m) k in
          let* _ := return_error_if (len0 v) msg in
          rest v)
  = Panic.
Proof.
  intros Hk. apply bind_Panic, index_string_nil, at_key_None, Hk.
Qed.

Lemma nil_check_passes {R : Type} (m : gmap string value) (msg : string) (rest : M R) :
  result (let* _ := return_error_if (nil_map (Some m)) msg in rest) = result rest.
Proof. rewrite (bind_Ok _ _ tt) by reflexivity. reflexivity. Qed.

Lemma nsx_manager_check {R : Type} (m : gmap string value) (msg : string) (rest : M R) :
  result (let* nsx_manager := index (Some m) "nsx_manager" in
          let* _ := return_error_if (is_nil nsx_manager) msg in
          rest)
  = if is_nil (at_key (Some m) "nsx_manager") then Err msg else result rest.
Proof.
  unfold index. rewrite bind_step.
  destruct (is_nil (at_key (Some m) "nsx_manager")).
  - apply bind_Err. reflexivity.
  - rewrite (bind_Ok _ _ tt) by reflexivity. reflexivity.
Qed.

Lemma optional_field_step {R S : Type} (m : gmap string value) (k : string)
    (set : string -> R) (r : R) (rest : R -> M S) :
  absent_empty_or_string IsEmpty m k ->
  result (let* (v, ok) := index_ok (Some m) k in
          let* r' := (if ok && negb (IsEmpty v)
                      then let* s := as_string v in ret (set s)
                      else ret r) in
          rest r')
  = result (rest (assigned IsEmpty m k set r)).
Proof.
  intros Hk. unfold index_ok, assigned. rewrite bind_step.
  destruct Hk as [Hk | (v & Hk & Hv)].
  - apply present_false_iff in Hk. rewrite Hk. cbn [andb].
    rewrite (bind_Ok _ _ r) by reflexivity. reflexivity.
  - rewrite (at_key_Some _ _ _ Hk).
    destruct (present (Some m) k && negb (IsEmpty v)) eqn:Hc.
    + apply andb_true_iff in Hc as (_ & Hc). apply negb_true_iff in Hc.
      destruct Hv as [Hv | (s & ->)]; [congruence |].
      rewrite (bind_Ok _ _ (set s)) by reflexivity. reflexivity.
    + rewrite (bind_Ok _ _ r) by reflexivity. reflexivity.
Qed.

Lemma NsxSchema_keys (node : Resource) (s : PkgVars) :
  dom (fst (NsxSchema node s))
  = {[ "vip"; "vip_fqdn"; "license_key"; "form_factor";
       "nsx_manager_admin_password"; "nsx_manager_audit_password";
       "nsx_manager_node" ]}.
Proof.
  unfold NsxSchema, NsxManagerNodeSchema, and_then, built. cbn [fst].
  rewrite dom_list_to_map_L. cbn [fmap list_fmap fst list_to_set].
  rewrite (right_id_L ∅ (∪)). reflexivity.
Qed.

(** C1 (what the code does).  A map whose keys are all declared by
    [NsxSchema] has no entry under [nsx_manager], the key the converter
    tests before it reads the passwords, the licence and the node list: with
    [vip] and [vip_fqdn] in order, the call ends in the error of that test,
    whatever the other required fields hold. *)
Theorem TryConvertToNsxSpec_rejects_schema_map (node : Resource) (s : PkgVars)
    (m : gmap string value) :
  dom m ⊆ dom (fst (NsxSchema node s)) ->
  nonempty_string m "vip" ->
  nonempty_string m "vip_fqdn" ->
  result (TryConvertToNsxSpec IsEmpty TryConvertToNsxManagerNodeSpec (Some m))
  = Err "cannot convert to NsxTSpec, nsx_manager is required".
Proof.
  intros Hdom Hvip Hfqdn.
  assert (Hnone : m !! "nsx_manager" = None).
  { apply not_elem_of_dom. intros Hin. apply Hdom in Hin.
    rewrite NsxSchema_keys in Hin.
    set_unfold in Hin. intuition discriminate. }
  unfold TryConvertToNsxSpec.
  rewrite nil_check_passes.
  destruct Hvip as (vip & Hvip & Hvip0), Hfqdn as (fqdn & Hfqdn & Hfqdn0).
  rewrite (required_string_passes _ _ _ _ _ Hvip Hvip0).
  rewrite (required_string_passes _ _ _ _ _ Hfqdn Hfqdn0).
  rewrite nsx_manager_check, (at_key_None _ _ Hnone). reflexivity.
Qed.

(** C6 (amended).  On a map that passes every check made before the node
    list is read (the four required strings present and non-empty, a
    non-nil entry under [nsx_manager], each optional field absent, empty or
    a string) and whose [nsx_manager_node] is the empty list, the call
    returns a nil result and the error asking for at least one entry. *)
Theorem empty_node_list_error (m : gmap string value) :
  nonempty_string m "vip" ->
  nonempty_string m "vip_fqdn" ->
  at_key (Some m) "nsx_manager" <> VNil ->
  nonempty_string m "nsx_manager_admin_password" ->
  nonempty_string m "license_key" ->
  absent_empty_or_string IsEmpty m "form_factor" ->
  absent_empty_or_string IsEmpty m "nsx_manager_audit_password" ->
  m !! "nsx_manager_node" = Some (VList []) ->
  result (TryConvertToNsxSpec IsEmpty TryConvertToNsxManagerNodeSpec (Some m))
  = Err "cannot convert to NsxTSpec, at least one entry for nsx_manager is required".
Proof.
  intros Hvip Hfqdn Hmgr Hpw Hkey Hff Haudit Hnodes.
  destruct Hvip as (vip & Hvip & Hvip0), Hfqdn as (fqdn & Hfqdn & Hfqdn0),
    Hpw as (pw & Hpw & Hpw0), Hkey as (key & Hkey & Hkey0).
  unfold TryConvertToNsxSpec.
  rewrite nil_check_passes.
  rewrite (required_string_passes _ _ _ _ _ Hvip Hvip0).
  rewrite (required_string_passes _ _ _ _ _ Hfqdn Hfqdn0).
  rewrite nsx_manager_check.
  replace (is_nil (at_key (Some m) "nsx_manager")) with false
    by (destruct (at_key (Some m) "nsx_manager"); [contradiction | reflexivity ..]).
  rewrite (required_string_passes _ _ _ _ _ Hpw Hpw0).
  rewrite (required_string_passes _ _ _ _ _ Hkey Hkey0).
  cbv zeta.
  rewrite (optional_field_step _ _ _ _ _ Hff).
  rewrite (optional_field_step _ _ _ _ _ Haudit).
  rewrite (bind_Ok _ _ []) by (apply index_list_is, at_key_Some, Hnodes).
  apply bind_Err. reflexivity.
Qed.

Lemma Err_fails_naming {A : Type} (o : outcome A) (msg field : string) :
  o = Err msg -> contains field msg = true -> fails_naming o field.
Proof. intros Ho Hc. exists msg. split; assumption. Qed.

(** C2 (amended).  Each required string field is read by an unguarded type
    assertion and then tested for emptiness.  Where the checks before it
    pass, the empty string at the field makes the converter return an error
    whose message contains the field's name, and an absent field makes the
    assertion panic. *)
Theorem required_strings_checked (m : gmap string value) :
  ((m !! "id" = Some (VString "") ->
    fails_naming (result (TryConvertToVmNic IsEmpty (Some m))) "id")
   /\ (m !! "id" = None ->
       result (TryConvertToVmNic IsEmpty (Some m)) = Panic))
  /\ ((m !! "vip" = Some (VString "") ->
       fails_naming
         (result (TryConvertToNsxSpec IsEmpty TryConvertToNsxManagerNodeSpec (Some m)))
         "vip")
      /\ (m !! "vip" = None ->
          result (TryConvertToNsxSpec IsEmpty TryConvertToNsxManagerNodeSpec (Some m))
          = Panic))
  /\ (nonempty_string m "vip" ->
      (m !! "vip_fqdn" = Some (VString "") ->
       fails_naming
         (result (TryConvertToNsxSpec IsEmpty TryConvertToNsxManagerNodeSpec (Some m)))
         "vip_fqdn")
      /\ (m !! "vip_fqdn" = None ->
          result (TryConvertToNsxSpec IsEmpty TryConvertToNsxManagerNodeSpec (Some m))
          = Panic))
  /\ (nonempty_string m "vip" -> nonempty_string m "vip_fqdn" ->
      at_key (Some m) "nsx_manager" <> VNil ->
      ((m !! "nsx_manager_admin_password" = Some (VString "") ->
        fails_naming
          (result (TryConvertToNsxSpec IsEmpty TryConvertToNsxManagerNodeSpec (Some m)))
          "nsx_manager_admin_password")
       /\ (m !! "nsx_manager_admin_password" = None ->
           result (TryConvertToNsxSpec IsEmpty TryConvertToNsxManagerNodeSpec (Some m))
           = Panic))
      /\ (nonempty_string m "nsx_manager_admin_password" ->
          (m !! "license_key" = Some (VString "") ->
           fails_naming
             (result (TryConvertToNsxSpec IsEmpty TryConvertToNsxManagerNodeSpec (Some m)))
             "license_key")
          /\ (m !! "license_key" = None ->
              result (TryConvertToNsxSpec IsEmpty TryConvertToNsxManagerNodeSpec (Some m))
              = Panic))).
Proof.
  split; [| split; [| split]].
  - unfold TryConvertToVmNic. rewrite nil_check_passes. split; intros Hk.
    + eapply Err_fails_naming; [apply required_string_empty, Hk | reflexivity].
    + apply required_string_absent, Hk.
  - unfold TryConvertToNsxSpec. rewrite nil_check_passes. split; intros Hk.
    + eapply Err_fails_naming; [apply required_string_empty, Hk | reflexivity].
    + apply required_string_absent, Hk.
  - intros (vip & Hvip & Hvip0).
    unfold TryConvertToNsxSpec. rewrite nil_check_passes.
    rewrite (required_string_passes _ _ _ _ _ Hvip Hvip0).
    split; intros Hk.
    + eapply Err_fails_naming; [apply required_string_empty, Hk | reflexivity].
    + apply required_string_absent, Hk.
  - intros (vip & Hvip & Hvip0) (fqdn & Hfqdn & Hfqdn0) Hmgr.
    unfold TryConvertToNsxSpec. rewrite nil_check_passes.
    rewrite (required_string_passes _ _ _ _ _ Hvip Hvip0).
    rewrite (required_string_passes _ _ _ _ _ Hfqdn Hfqdn0).
    rewrite nsx_manager_check.
    replace (is_nil (at_key (Some m) "nsx_manager")) with false
      by (destruct (at_key (Some m) "nsx_manager"); [contradiction | reflexivity ..]).
    split; [split; intros Hk |].
    + eapply Err_fails_naming; [apply required_string_empty, Hk | reflexivity].
    + apply required_string_absent, Hk.
    + intros (pw & Hpw & Hpw0).
      rewrite (required_string_passes _ _ _ _ _ Hpw Hpw0).
      split; intros Hk.
      * eapply Err_fails_naming; [apply required_string_empty, Hk | reflexivity].
      * apply required_string_absent, Hk.
Qed.

(** C3 (amended).  The only flattener takes an [NsxTClusterReference],
    not the [NsxTSpec] the converter returns, and writes the keys id, vip
    and vip_fqdn alone.  So after a successful conversion, flattening a
    reference that carries the spec's [Vip] and [VipFqdn] gives back the
    map's [vip] and [vip_fqdn] entries, and nothing of its other entries. *)
Theorem flatten_after_convert_keeps_vip (m : gmap string value)
    (spec : NsxTSpec NsxManagerSpec) (ref : NsxTClusterReference) :
  result (TryConvertToNsxSpec IsEmpty TryConvertToNsxManagerNodeSpec (Some m)) = Ok spec ->
  Vip spec = Some (Ref_Vip ref) ->
  VipFqdn spec = Some (Ref_VipFqdn ref) ->
  exists flat : gmap string value,
    FlattenNsxClusterRef (Some ref) = Some (Some flat)
    /\ flat !! "vip" = m !! "vip"
    /\ flat !! "vip_fqdn" = m !! "vip_fqdn"
    /\ forall k, is_Some (flat !! k) -> k = "id" \/ k = "vip" \/ k = "vip_fqdn".
Proof.
  intros H Hv Hf.
  apply TryConvertToNsxSpec_Ok_inv in H
    as (vip & fqdn & pw & key & r1 & r2 & nodes & specs
        & (Hvip & Hfqdn & _) & Hr1 & _ & Hr2 & _ & _ & ->).
  apply at_key_lookup in Hvip, Hfqdn; try discriminate.
  assert (Hvip' : Some vip = Some (Ref_Vip ref) /\ Some fqdn = Some (Ref_VipFqdn ref)).
  { destruct Hr2 as [-> | (s2 & ->)]; destruct Hr1 as [-> | (s1 & ->)];
      split; assumption. }
  destruct Hvip' as ([= ->] & [= ->]).
  eexists. split; [reflexivity |].
  split; [| split].
  - rewrite Hvip, lookup_insert_ne by discriminate. apply lookup_insert_eq.
  - rewrite Hfqdn. apply lookup_insert_eq.
  - intros k (v & Hk).
    destruct (decide (k = "vip_fqdn")) as [-> | N1]; [auto |].
    destruct (decide (k = "vip")) as [-> | N2]; [auto |].
    destruct (decide (k = "id")) as [-> | N3]; [auto |].
    rewrite !lookup_insert_ne, lookup_empty in Hk by congruence.
    discriminate Hk.
Qed.

End ConverterFacts.

(** ** Further properties of the converters, the flattener and the destroy check *)

Section ReadLogFacts.
Context {A B : Type}.

Lemma reads_bind (c : M A) (k : A -> M B) :
  reads (bind c k) =
  reads c ++ match result c with Ok a => reads (k a) | _ => [] end.
Proof.
  destruct c as [[a | msg |] l]; unfold bind, reads, result; simpl.
  - destruct (k a); reflexivity.
  - symmetry. apply app_nil_r.
  - symmetry. apply app_nil_r.
Qed.

Lemma reads_bind_prefix (c : M A) (k : A -> M B) (l1 l2 : list string) :
  reads c = l1 ->
  (forall a, result c = Ok a -> reads (k a) `prefix_of` l2) ->
  reads (bind c k) `prefix_of` l1 ++ l2.
Proof.
  intros Hc Hk. rewrite reads_bind, Hc. apply prefix_app.
  destruct (result c) as [a | msg |].
  - apply Hk. reflexivity.
  - apply prefix_nil.
  - apply prefix_nil.
Qed.

Lemma reads_bind_Ok (c : M A) (k : A -> M B) (a : A) :
  result c = Ok a -> reads (bind c k) = reads c ++ reads (k a).
Proof. intros H. rewrite reads_bind, H. reflexivity. Qed.

End ReadLogFacts.

Section VmNicRuns.
Variable IsEmpty : value -> bool.

Lemma index_string_not_string (object : gomap) (k : string) :
  (forall s, at_key object k <> VString s) ->
  result (index_string object k) = Panic.
Proof.
  intros H. unfold index_string, index. rewrite bind_step.
  destruct (at_key object k); try reflexivity.
  exfalso. eapply H. reflexivity.
Qed.

Lemma required_string_not_string {R : Type} (m : gmap string value) (k msg : string)
    (rest : string -> M R) :
  not_a_string m k ->
  result (let* v := index_string (Some m) k in
          let* _ := return_error_if (len0 v) msg in
          rest v)
  = Panic.
Proof.
  intros Hk. apply bind_Panic, index_string_not_string.
  intros s Hs. apply (Hk s). apply at_key_lookup; [exact Hs | discriminate].
Qed.

(** The entry of a required string is a non-empty string, the empty
    string, or no string at all. *)
Lemma required_string_cases (m : gmap string value) (k : string) :
  nonempty_string m k \/ m !! k = Some (VString "") \/ not_a_string m k.
Proof.
  destruct (m !! k) as [v |] eqn:Hk.
  - destruct v as [| s | | | | | |];
      try (right; right; intros s' Hs; rewrite Hk in Hs; discriminate Hs).
    destruct s as [| a s].
    + right. left. reflexivity.
    + left. exists (String a s). split; [exact Hk | discriminate].
  - right. right. intros s' Hs. rewrite Hk in Hs. discriminate Hs.
Qed.

Lemma nonempty_not_empty (m : gmap string value) (k : string) :
  nonempty_string m k -> m !! k = Some (VString "") -> False.
Proof. intros (s & Hk & Hs) Hk'. rewrite Hk in Hk'. congruence. Qed.

Lemma nonempty_is_string (m : gmap string value) (k : string) :
  nonempty_string m k -> not_a_string m k -> False.
Proof. intros (s & Hk & _) Hn. exact (Hn s Hk). Qed.

Lemma empty_is_string (m : gmap string value) (k : string) :
  m !! k = Some (VString "") -> not_a_string m k -> False.
Proof. intros Hk Hn. exact (Hn "" Hk). Qed.

(** An optional entry either goes through the assignment or has the wrong
    dynamic type. *)
Lemma optional_cases (m : gmap string value) (k : string) :
  absent_empty_or_string IsEmpty m k \/ wrongly_typed IsEmpty m k.
Proof.
  destruct (m !! k) as [v |] eqn:Hk; [| left; left; exact Hk].
  destruct (IsEmpty v) eqn:He.
  - left. right. exists v. split; [exact Hk | left; exact He].
  - destruct v as [| s | | | | | |];
      try (right; exists v; repeat split; subst; try assumption; discriminate).
    all: try (right; eexists; split; [exact Hk | split; [exact He | discriminate]]).
    left. right. eexists. split; [exact Hk | right; eauto].
Qed.

Lemma optional_exclusive (m : gmap string value) (k : string) :
  absent_empty_or_string IsEmpty m k -> wrongly_typed IsEmpty m k -> False.
Proof.
  intros [Hk | (v & Hk & [He | (s & ->)])] (w & Hw & Hne & Hns).
  - congruence.
  - rewrite Hk in Hw. injection Hw as <-. congruence.
  - rewrite Hk in Hw. injection Hw as <-. exact (Hns s eq_refl).
Qed.

Lemma optional_field_panics {R S : Type} (m : gmap string value) (k : string)
    (set : string -> R) (r : R) (rest : R -> M S) :
  wrongly_typed IsEmpty m k ->
  result (let* (v, ok) := index_ok (Some m) k in
          let* r' := (if ok && negb (IsEmpty v)
                      then let* s := as_string v in ret (set s)
                      else ret r) in
          rest r')
  = Panic.
Proof.
  intros (v & Hk & He & Hns). unfold index_ok. rewrite bind_step.
  unfold present. rewrite (at_key_Some _ _ _ Hk), Hk, He. cbn [andb negb].
  apply bind_Panic, bind_Panic.
  destruct v; try reflexivity. exfalso. eapply Hns. reflexivity.
Qed.

(** The five ways a call of [TryConvertToVmNic] on a non-nil map goes. *)
Lemma TryConvertToVmNic_cases (m : gmap string value) :
  (not_a_string m "id"
   /\ result (TryConvertToVmNic IsEmpty (Some m)) = Panic)
  \/ (m !! "id" = Some (VString "")
      /\ result (TryConvertToVmNic IsEmpty (Some m))
         = Err "cannot convert to VMNic, id is required")
  \/ (nonempty_string m "id" /\ wrongly_typed IsEmpty m "uplink"
      /\ result (TryConvertToVmNic IsEmpty (Some m)) = Panic)
  \/ (nonempty_string m "id" /\ absent_empty_or_string IsEmpty m "uplink"
      /\ wrongly_typed IsEmpty m "vds_name"
      /\ result (TryConvertToVmNic IsEmpty (Some m)) = Panic)
  \/ (exists id,
        m !! "id" = Some (VString id) /\ id <> ""
        /\ absent_empty_or_string IsEmpty m "uplink"
        /\ absent_empty_or_string IsEmpty m "vds_name"
        /\ result (TryConvertToVmNic IsEmpty (Some m))
           = Ok (mkVMNic id
                   (assigned IsEmpty m "uplink" (fun s => s) "")
                   (assigned IsEmpty m "vds_name" (fun s => s) ""))).
Proof.
  unfold TryConvertToVmNic. rewrite nil_check_passes.
  destruct (required_string_cases m "id") as [Hid | [Hid | Hid]].
  - destruct Hid as (id & Hid & Hid0).
    rewrite (required_string_passes _ _ _ _ _ Hid Hid0). cbv zeta.
    destruct (optional_cases m "uplink") as [Hu | Hu].
    + rewrite (optional_field_step IsEmpty _ _ _ _ _ Hu).
      destruct (optional_cases m "vds_name") as [Hv | Hv].
      * rewrite (optional_field_step IsEmpty _ _ _ _ _ Hv).
        do 4 right. exists id. repeat (split; [assumption |]).
        unfold assigned.
        destruct (present (Some m) "uplink" && negb (IsEmpty (at_key (Some m) "uplink")));
          destruct (present (Some m) "vds_name" && negb (IsEmpty (at_key (Some m) "vds_name")));
          destruct (at_key (Some m) "uplink"); destruct (at_key (Some m) "vds_name");
          reflexivity.
      * rewrite (optional_field_panics _ _ _ _ _ Hv).
        do 3 right. left. repeat split; try assumption. exists id. auto.
    + rewrite (optional_field_panics _ _ _ _ _ Hu).
      do 2 right. left. repeat split; try assumption. exists id. auto.
  - right. left. split; [exact Hid |]. apply required_string_empty, Hid.
  - left. split; [exact Hid |]. apply required_string_not_string, Hid.
Qed.

End VmNicRuns.

Section NsxRuns.
Variable IsEmpty : value -> bool.
Variable NsxManagerSpec : Type.
Variable TryConvertToNsxManagerNodeSpec : gomap -> outcome NsxManagerSpec.

Lemma optional_if_runs {R : Type} (m : gmap string value) (k : string)
    (set : string -> R) (r : R) :
  absent_empty_or_string IsEmpty m k ->
  result (if present (Some m) k && negb (IsEmpty (at_key (Some m) k))
          then let* s := as_string (at_key (Some m) k) in ret (set s)
          else ret r)
  = Ok (assigned IsEmpty m k set r).
Proof.
  intros Hk. unfold assigned.
  destruct Hk as [Hk | (v & Hk & Hv)].
  - apply present_false_iff in Hk. rewrite Hk. reflexivity.
  - rewrite (at_key_Some _ _ _ Hk).
    destruct (present (Some m) k && negb (IsEmpty v)) eqn:Hc; [| reflexivity].
    apply andb_true_iff in Hc as (_ & Hc). apply negb_true_iff in Hc.
    destruct Hv as [Hv | (s & ->)]; [congruence | reflexivity].
Qed.

Lemma optional_if_panics {R : Type} (m : gmap string value) (k : string)
    (set : string -> R) (r : R) :
  wrongly_typed IsEmpty m k ->
  result (if present (Some m) k && negb (IsEmpty (at_key (Some m) k))
          then let* s := as_string (at_key (Some m) k) in ret (set s)
          else ret r)
  = Panic.
Proof.
  intros (v & Hk & He & Hns).
  unfold present. rewrite (at_key_Some _ _ _ Hk), Hk, He. cbn [andb negb].
  apply bind_Panic. destruct v; try reflexivity. exfalso. eapply Hns. reflexivity.
Qed.

Lemma optional_if_Ok_inv {R : Type} (m : gmap string value) (k : string)
    (set : string -> R) (r r' : R) :
  result (if present (Some m) k && negb (IsEmpty (at_key (Some m) k))
          then let* s := as_string (at_key (Some m) k) in ret (set s)
          else ret r) = Ok r' ->
  absent_empty_or_string IsEmpty m k /\ r' = assigned IsEmpty m k set r.
Proof.
  intros H. destruct (optional_cases IsEmpty m k) as [Hk | Hk].
  - split; [exact Hk |]. rewrite (optional_if_runs _ _ _ _ Hk) in H. congruence.
  - rewrite (optional_if_panics _ _ _ _ Hk) in H. discriminate H.
Qed.

Lemma required_string_Ok_inv (m : gmap string value) (k s msg : string) (u : unit) :
  result (index_string (Some m) k) = Ok s ->
  result (return_error_if (len0 s) msg) = Ok u ->
  m !! k = Some (VString s) /\ s <> "".
Proof.
  intros Hs Hu. apply index_string_Ok in Hs.
  split.
  - apply at_key_lookup; [exact Hs | discriminate].
  - apply len0_false. destruct (len0 s); [discriminate Hu | reflexivity].
Qed.

(** The loop over the node list. *)
Lemma convert_nsx_manager_list_all (nodes : list value)
    (acc new : list NsxManagerSpec) :
  Forall2 (node_converts TryConvertToNsxManagerNodeSpec) nodes new ->
  result (convert_nsx_manager_list TryConvertToNsxManagerNodeSpec nodes acc)
  = Ok (acc ++ new).
Proof.
  intros H. revert acc. induction H as [| entry s nodes new (n & -> & Hn) _ IH];
    intros acc.
  - rewrite app_nil_r. reflexivity.
  - cbn [convert_nsx_manager_list].
    rewrite (bind_Ok _ _ n) by reflexivity.
    rewrite (bind_Ok _ _ s) by exact Hn.
    rewrite IH, <- app_assoc. reflexivity.
Qed.

Lemma convert_nsx_manager_list_stops (good : list value) (n : gomap)
    (rest : list value) (acc new : list NsxManagerSpec) (o : outcome (list NsxManagerSpec)) :
  Forall2 (node_converts TryConvertToNsxManagerNodeSpec) good new ->
  match TryConvertToNsxManagerNodeSpec n with
  | Ok _ => False
  | Err msg => o = Err msg
  | Panic => o = Panic
  end ->
  result (convert_nsx_manager_list TryConvertToNsxManagerNodeSpec
            (good ++ VMap n :: rest) acc) = o.
Proof.
  intros H Hn. revert acc. induction H as [| entry s good new (n' & -> & Hn') _ IH];
    intros acc.
  - cbn [app convert_nsx_manager_list].
    rewrite (bind_Ok _ _ n) by reflexivity.
    destruct (TryConvertToNsxManagerNodeSpec n) as [s | msg |] eqn:Hc.
    + contradiction.
    + subst o. apply bind_Err. reflexivity.
    + subst o. apply bind_Panic. reflexivity.
  - cbn [app convert_nsx_manager_list].
    rewrite (bind_Ok _ _ n') by reflexivity.
    rewrite (bind_Ok _ _ s) by exact Hn'.
    apply IH.
Qed.

Lemma convert_nsx_manager_list_Err_inv (nodes : list value)
    (acc : list NsxManagerSpec) (msg : string) :
  result (convert_nsx_manager_list TryConvertToNsxManagerNodeSpec nodes acc) = Err msg ->
  exists n, VMap n ∈ nodes /\ TryConvertToNsxManagerNodeSpec n = Err msg.
Proof.
  revert acc. induction nodes as [| entry rest IH]; intros acc H.
  - discriminate H.
  - cbn [convert_nsx_manager_list] in H.
    rewrite result_bind in H.
    destruct entry; try discriminate H. cbn in H.
    rewrite result_bind in H. unfold lift in H. cbn in H.
    destruct (TryConvertToNsxManagerNodeSpec m) as [s | e |] eqn:Hc.
    + apply IH in H as (n & Hin & Hn). exists n. split; [right; exact Hin | exact Hn].
    + injection H as <-. exists m. split; [left | exact Hc].
    + discriminate H.
Qed.

Lemma is_nil_false (v : value) : v <> VNil -> is_nil v = false.
Proof. destruct v; [contradiction | reflexivity ..]. Qed.

Lemma is_nil_false_inv (v : value) : is_nil v = false -> v <> VNil.
Proof. destruct v; [discriminate | discriminate ..]. Qed.

Lemma length_eqb_0 {A : Type} (l : list A) : l <> [] -> Nat.eqb (length l) 0 = false.
Proof. destruct l; [contradiction | reflexivity]. Qed.

(** Past the checks, the call is the loop over the nodes. *)
Lemma TryConvertToNsxSpec_past_checks (m : gmap string value)
    (vip vipFqdn password key : string) (nodes : list value) :
  nsx_checks_pass IsEmpty m vip vipFqdn password key nodes ->
  result (TryConvertToNsxSpec IsEmpty TryConvertToNsxManagerNodeSpec (Some m))
  = match result (convert_nsx_manager_list TryConvertToNsxManagerNodeSpec nodes []) with
    | Ok specs => Ok (nsx_spec_of IsEmpty NsxManagerSpec m vip vipFqdn password key specs)
    | Err msg => Err msg
    | Panic => Panic
    end.
Proof.
  intros ((Hvip & Hvip0) & (Hfqdn & Hfqdn0) & Hmgr & (Hpw & Hpw0) & (Hkey & Hkey0)
          & Hff & Haudit & Hnodes & Hne).
  unfold TryConvertToNsxSpec.
  rewrite nil_check_passes.
  rewrite (required_string_passes _ _ _ _ _ Hvip Hvip0).
  rewrite (required_string_passes _ _ _ _ _ Hfqdn Hfqdn0).
  rewrite nsx_manager_check, (is_nil_false _ Hmgr).
  rewrite (required_string_passes _ _ _ _ _ Hpw Hpw0).
  rewrite (required_string_passes _ _ _ _ _ Hkey Hkey0).
  cbv zeta.
  rewrite (optional_field_step IsEmpty _ _ _ _ _ Hff).
  rewrite (optional_field_step IsEmpty _ _ _ _ _ Haudit).
  rewrite (bind_Ok _ _ nodes) by (apply index_list_is, at_key_Some, Hnodes).
  rewrite (length_eqb_0 _ Hne).
  rewrite (bind_Ok _ _ tt) by reflexivity.
  rewrite result_bind.
  destruct (result (convert_nsx_manager_list TryConvertToNsxManagerNodeSpec nodes []));
    reflexivity.
Qed.

(** A successful call passed every check. *)
Lemma TryConvertToNsxSpec_Ok_checks (m : gmap string value)
    (spec : NsxTSpec NsxManagerSpec) :
  result (TryConvertToNsxSpec IsEmpty TryConvertToNsxManagerNodeSpec (Some m)) = Ok spec ->
  exists vip vipFqdn password key nodes,
    nsx_checks_pass IsEmpty m vip vipFqdn password key nodes.
Proof.
  unfold TryConvertToNsxSpec. intros H.
  apply bind_Ok_inv in H as (? & _ & H).
  apply bind_Ok_inv in H as (vip & Hvip & H).
  apply bind_Ok_inv in H as (? & Hvip0 & H).
  apply bind_Ok_inv in H as (vipFqdn & Hfqdn & H).
  apply bind_Ok_inv in H as (? & Hfqdn0 & H).
  apply bind_Ok_inv in H as (mgr & Hmgr & H).
  apply bind_Ok_inv in H as (? & Hmgr0 & H).
  apply bind_Ok_inv in H as (password & Hpw & H).
  apply bind_Ok_inv in H as (? & Hpw0 & H).
  apply bind_Ok_inv in H as (key & Hkey & H).
  apply bind_Ok_inv in H as (? & Hkey0 & H).
  apply bind_Ok_inv in H as (p & Hp & H).
  apply index_ok_Ok in Hp. subst p.
  apply bind_Ok_inv in H as (r1 & H1 & H).
  apply bind_Ok_inv in H as (p & Hp & H).
  apply index_ok_Ok in Hp. subst p.
  apply bind_Ok_inv in H as (r2 & H2 & H).
  apply bind_Ok_inv in H as (nodes & Hnodes & H).
  apply bind_Ok_inv in H as (? & Hne & H).
  exists vip, vipFqdn, password, key, nodes.
  split; [exact (required_string_Ok_inv _ _ _ _ _ Hvip Hvip0) |].
  split; [exact (required_string_Ok_inv _ _ _ _ _ Hfqdn Hfqdn0) |].
  split.
  { injection Hmgr as <-. apply is_nil_false_inv.
    change (default VNil (m !! "nsx_manager"))
      with (at_key (Some m) "nsx_manager") in Hmgr0.
    destruct (is_nil (at_key (Some m) "nsx_manager"));
      [discriminate Hmgr0 | reflexivity]. }
  split; [exact (required_string_Ok_inv _ _ _ _ _ Hpw Hpw0) |].
  split; [exact (required_string_Ok_inv _ _ _ _ _ Hkey Hkey0) |].
  split; [exact (proj1 (optional_if_Ok_inv _ _ _ _ _ H1)) |].
  split; [exact (proj1 (optional_if_Ok_inv _ _ _ _ _ H2)) |].
  apply index_list_Ok in Hnodes.
  split; [apply at_key_lookup; [exact Hnodes | discriminate] |].
  intros ->. discriminate Hne.
Qed.

End NsxRuns.

Section ErrorFacts.
Context {A B : Type}.
Lemma bind_Err_inv (c : M A) (k : A -> M B) (msg : string) :
  result (bind c k) = Err msg ->
  result c = Err msg \/ exists a, result c = Ok a /\ result (k a) = Err msg.
Proof.
  rewrite result_bind. destruct (result c) as [a | e |]; intros H.
  - right. exists a. split; [reflexivity | exact H].
  - left. injection H as ->. reflexivity.
  - discriminate H.
Qed.
End ErrorFacts.

Section VmNicOutcomes.
Variable IsEmpty : value -> bool.

Lemma assigned_string {R : Type} (m : gmap string value) (k s : string)
    (set : string -> R) (r : R) :
  m !! k = Some (VString s) -> IsEmpty (VString s) = false ->
  assigned IsEmpty m k set r = set s.
Proof.
  intros Hk He. unfold assigned, present.
  rewrite (at_key_Some _ _ _ Hk), Hk, He. reflexivity.
Qed.

(** X1.  On a non-nil map [TryConvertToVmNic] returns a VMNic exactly when
    [id] is a non-empty string and each of [uplink] and [vds_name] is
    absent, empty, or a string. *)
Theorem TryConvertToVmNic_succeeds_iff (m : gmap string value) :
  (exists nic, result (TryConvertToVmNic IsEmpty (Some m)) = Ok nic)
  <-> nonempty_string m "id"
      /\ absent_empty_or_string IsEmpty m "uplink"
      /\ absent_empty_or_string IsEmpty m "vds_name".
Proof.
  destruct (TryConvertToVmNic_cases IsEmpty m)
    as [(Hid & H) | [(Hid & H) | [(Hid & Hu & H) | [(Hid & Hu & Hv & H)
        | (id & Hid & Hid0 & Hu & Hv & H)]]]]; rewrite H; split.
  all: try (intros (nic & Hn); discriminate Hn).
  - intros (Hn & _). destruct (nonempty_is_string _ _ Hn Hid).
  - intros (Hn & _). destruct (nonempty_not_empty _ _ Hn Hid).
  - intros (_ & Hu' & _). destruct (optional_exclusive _ _ _ Hu' Hu).
  - intros (_ & _ & Hv'). destruct (optional_exclusive _ _ _ Hv' Hv).
  - intros _. split; [exists id; auto | auto].
  - intros _. eexists. reflexivity.
Qed.

(** X2.  A VMNic that [TryConvertToVmNic] returns has the map's [id],
    which is not empty, as its ID, and each optional entry that is a string
    not empty for [IsEmpty] as its Uplink, respectively VdsName. *)
Theorem TryConvertToVmNic_copies_strings (m : gmap string value) (nic : VMNic) :
  result (TryConvertToVmNic IsEmpty (Some m)) = Ok nic ->
  (m !! "id" = Some (VString (VMNic_ID nic)) /\ VMNic_ID nic <> "")
  /\ (forall s, m !! "uplink" = Some (VString s) -> IsEmpty (VString s) = false ->
      VMNic_Uplink nic = s)
  /\ (forall s, m !! "vds_name" = Some (VString s) -> IsEmpty (VString s) = false ->
      VMNic_VdsName nic = s).
Proof.
  destruct (TryConvertToVmNic_cases IsEmpty m)
    as [(Hid & H) | [(Hid & H) | [(Hid & Hu & H) | [(Hid & Hu & Hv & H)
        | (id & Hid & Hid0 & Hu & Hv & H)]]]]; rewrite H; intros Hn;
    try discriminate Hn.
  injection Hn as <-. cbn [VMNic_ID VMNic_Uplink VMNic_VdsName].
  split; [split; assumption |].
  split; intros s Hs He;
    exact (assigned_string _ _ _ (fun s => s) "" Hs He).
Qed.

(** X3.  On a non-nil map [TryConvertToVmNic] panics exactly when [id] is
    absent or no string, or when [id] is a non-empty string and [uplink] or
    [vds_name] holds a non-empty value that is no string. *)
Theorem TryConvertToVmNic_panics_iff (m : gmap string value) :
  result (TryConvertToVmNic IsEmpty (Some m)) = Panic
  <-> not_a_string m "id"
      \/ (nonempty_string m "id"
          /\ (wrongly_typed IsEmpty m "uplink" \/ wrongly_typed IsEmpty m "vds_name")).
Proof.
  destruct (TryConvertToVmNic_cases IsEmpty m)
    as [(Hid & H) | [(Hid & H) | [(Hid & Hu & H) | [(Hid & Hu & Hv & H)
        | (id & Hid & Hid0 & Hu & Hv & H)]]]]; rewrite H; split.
  - intros _. left. exact Hid.
  - reflexivity.
  - discriminate.
  - intros [Hn | (Hn & _)].
    + destruct (empty_is_string _ _ Hid Hn).
    + destruct (nonempty_not_empty _ _ Hn Hid).
  - intros _. right. split; [exact Hid | left; exact Hu].
  - reflexivity.
  - intros _. right. split; [exact Hid | right; exact Hv].
  - reflexivity.
  - discriminate.
  - intros [Hn | (_ & [Hw | Hw])].
    + destruct (Hn id Hid).
    + destruct (optional_exclusive _ _ _ Hu Hw).
    + destruct (optional_exclusive _ _ _ Hv Hw).
Qed.

(** X4.  [TryConvertToVmNic] returns an error in two cases only: the nil
    map, with the message about the nil object, and an empty [id], with
    the message that id is required. *)
Theorem TryConvertToVmNic_errors (object : gomap) (msg : string) :
  result (TryConvertToVmNic IsEmpty object) = Err msg
  <-> (object = None /\ msg = "cannot convert to VMNic, object is nil")
      \/ (exists m, object = Some m /\ m !! "id" = Some (VString "")
                    /\ msg = "cannot convert to VMNic, id is required").
Proof.
  destruct object as [m |].
  - destruct (TryConvertToVmNic_cases IsEmpty m)
      as [(Hid & H) | [(Hid & H) | [(Hid & Hu & H) | [(Hid & Hu & Hv & H)
          | (id & Hid & Hid0 & Hu & Hv & H)]]]]; rewrite H; split.
    + discriminate.
    + intros [(Hn & _) | (m' & [= <-] & Hm & _)]; [discriminate Hn |].
      destruct (empty_is_string _ _ Hm Hid).
    + intros [= <-]. right. exists m. auto.
    + intros [(Hn & _) | (m' & _ & _ & ->)]; [discriminate Hn | reflexivity].
    + discriminate.
    + intros [(Hn & _) | (m' & [= <-] & Hm & _)]; [discriminate Hn |].
      destruct (nonempty_not_empty _ _ Hid Hm).
    + discriminate.
    + intros [(Hn & _) | (m' & [= <-] & Hm & _)]; [discriminate Hn |].
      destruct (nonempty_not_empty _ _ Hid Hm).
    + discriminate.
    + intros [(Hn & _) | (m' & [= <-] & Hm & _)]; [discriminate Hn |].
      rewrite Hid in Hm. congruence.
  - split.
    + intros [= <-]. left. auto.
    + intros [(_ & ->) | (m & Hm & _)]; [reflexivity | discriminate Hm].
Qed.

End VmNicOutcomes.

Section NsxOutcomes.
Variable IsEmpty : value -> bool.
Variable NsxManagerSpec : Type.
Variable TryConvertToNsxManagerNodeSpec : gomap -> outcome NsxManagerSpec.

Lemma convert_nsx_manager_list_not_map (good : list value) (entry : value)
    (rest : list value) (acc new : list NsxManagerSpec) :
  Forall2 (node_converts TryConvertToNsxManagerNodeSpec) good new ->
  (forall n, entry <> VMap n) ->
  result (convert_nsx_manager_list TryConvertToNsxManagerNodeSpec
            (good ++ entry :: rest) acc) = Panic.
Proof.
  intros H He. revert acc. induction H as [| e s good new (n' & -> & Hn') _ IH];
    intros acc.
  - cbn [app convert_nsx_manager_list]. apply bind_Panic.
    destruct entry; try reflexivity. exfalso. eapply He. reflexivity.
  - cbn [app convert_nsx_manager_list].
    rewrite (bind_Ok _ _ n') by reflexivity.
    rewrite (bind_Ok _ _ s) by exact Hn'.
    apply IH.
Qed.

Lemma nsx_spec_of_fields (m : gmap string value) (vip vipFqdn password key : string)
    (specs : list NsxManagerSpec) :
  Vip (nsx_spec_of IsEmpty NsxManagerSpec m vip vipFqdn password key specs) = Some vip
  /\ VipFqdn (nsx_spec_of IsEmpty NsxManagerSpec m vip vipFqdn password key specs)
     = Some vipFqdn
  /\ LicenseKey (nsx_spec_of IsEmpty NsxManagerSpec m vip vipFqdn password key specs) = key
  /\ NsxManagerAdminPassword
       (nsx_spec_of IsEmpty NsxManagerSpec m vip vipFqdn password key specs) = password
  /\ NsxManagerSpecs (nsx_spec_of IsEmpty NsxManagerSpec m vip vipFqdn password key specs)
     = specs.
Proof.
  unfold nsx_spec_of, assigned.
  destruct (present (Some m) "nsx_manager_audit_password"
            && negb (IsEmpty (at_key (Some m) "nsx_manager_audit_password")));
    destruct (present (Some m) "form_factor"
              && negb (IsEmpty (at_key (Some m) "form_factor")));
    destruct (at_key (Some m) "nsx_manager_audit_password");
    destruct (at_key (Some m) "form_factor"); repeat split.
Qed.

(** X6.  [TryConvertToNsxSpec] returns a spec exactly when the map passes
    every check made before the node list is walked and every element of
    the node list is a map that the node converter accepts; the spec is
    then made of the four required strings, the optional strings and the
    converted nodes, in order. *)
Theorem TryConvertToNsxSpec_succeeds_iff (m : gmap string value)
    (spec : NsxTSpec NsxManagerSpec) :
  result (TryConvertToNsxSpec IsEmpty TryConvertToNsxManagerNodeSpec (Some m)) = Ok spec
  <-> exists vip vipFqdn password key nodes specs,
        nsx_checks_pass IsEmpty m vip vipFqdn password key nodes
        /\ Forall2 (node_converts TryConvertToNsxManagerNodeSpec) nodes specs
        /\ spec = nsx_spec_of IsEmpty NsxManagerSpec m vip vipFqdn password key specs.
Proof.
  split.
  - intros H.
    destruct (TryConvertToNsxSpec_Ok_checks _ _ _ _ _ H)
      as (vip & fqdn & pw & key & nodes & Hc).
    rewrite (TryConvertToNsxSpec_past_checks _ _ _ _ _ _ _ _ _ Hc) in H.
    destruct (result (convert_nsx_manager_list TryConvertToNsxManagerNodeSpec nodes []))
      as [specs | |] eqn:Hl; try discriminate H.
    injection H as <-.
    apply convert_nsx_manager_list_Ok in Hl as (new & -> & Hall).
    exists vip, fqdn, pw, key, nodes, new. auto.
  - intros (vip & fqdn & pw & key & nodes & specs & Hc & Hall & ->).
    rewrite (TryConvertToNsxSpec_past_checks _ _ _ _ _ _ _ _ _ Hc).
    rewrite (convert_nsx_manager_list_all _ _ _ [] _ Hall). reflexivity.
Qed.

(** X7.  In a spec that [TryConvertToNsxSpec] returns, [Vip] and [VipFqdn]
    point to non-empty strings, [LicenseKey] and [NsxManagerAdminPassword]
    are not empty, and [NsxManagerSpecs] has at least one element. *)
Theorem TryConvertToNsxSpec_result_populated (m : gmap string value)
    (spec : NsxTSpec NsxManagerSpec) :
  result (TryConvertToNsxSpec IsEmpty TryConvertToNsxManagerNodeSpec (Some m)) = Ok spec ->
  (exists vip, Vip spec = Some vip /\ vip <> "")
  /\ (exists vipFqdn, VipFqdn spec = Some vipFqdn /\ vipFqdn <> "")
  /\ LicenseKey spec <> ""
  /\ NsxManagerAdminPassword spec <> ""
  /\ NsxManagerSpecs spec <> [].
Proof.
  intros H.
  destruct (TryConvertToNsxSpec_Ok_checks _ _ _ _ _ H)
    as (vip & fqdn & pw & key & nodes & Hc).
  rewrite (TryConvertToNsxSpec_past_checks _ _ _ _ _ _ _ _ _ Hc) in H.
  destruct (result (convert_nsx_manager_list TryConvertToNsxManagerNodeSpec nodes []))
    as [specs | |] eqn:Hl; try discriminate H.
  injection H as <-.
  destruct (nsx_spec_of_fields m vip fqdn pw key specs) as (E1 & E2 & E3 & E4 & E5).
  rewrite E1, E2, E3, E4, E5. clear E1 E2 E3 E4 E5.
  destruct Hc as ((_ & Hvip) & (_ & Hfqdn) & _ & (_ & Hpw) & (_ & Hkey) & _ & _ & _ & Hne).
  split; [eauto |]. split; [eauto |]. split; [exact Hkey |]. split; [exact Hpw |].
  apply convert_nsx_manager_list_Ok in Hl as (new & Hs & Hall).
  intros ->. destruct new; [| discriminate Hs].
  inversion Hall. subst. apply Hne. reflexivity.
Qed.

(** X8.  Past the checks, the first element of the node list that does
    not convert decides the call: the node converter's error is returned
    unchanged, and its panic, or an element that is no map, makes the call
    panic; the elements after it are not looked at. *)
Theorem TryConvertToNsxSpec_first_bad_node (m : gmap string value)
    (vip vipFqdn password key : string) (good : list value) (entry : value)
    (rest : list value) (new : list NsxManagerSpec) :
  nsx_checks_pass IsEmpty m vip vipFqdn password key (good ++ entry :: rest) ->
  Forall2 (node_converts TryConvertToNsxManagerNodeSpec) good new ->
  (forall n msg, entry = VMap n -> TryConvertToNsxManagerNodeSpec n = Err msg ->
     result (TryConvertToNsxSpec IsEmpty TryConvertToNsxManagerNodeSpec (Some m))
     = Err msg)
  /\ (forall n, entry = VMap n -> TryConvertToNsxManagerNodeSpec n = Panic ->
        result (TryConvertToNsxSpec IsEmpty TryConvertToNsxManagerNodeSpec (Some m))
        = Panic)
  /\ ((forall n, entry <> VMap n) ->
      result (TryConvertToNsxSpec IsEmpty TryConvertToNsxManagerNodeSpec (Some m))
      = Panic).
Proof.
  intros Hc Hgood.
  rewrite (TryConvertToNsxSpec_past_checks _ _ _ _ _ _ _ _ _ Hc).
  split; [| split].
  - intros n msg -> Hn.
    rewrite (convert_nsx_manager_list_stops _ _ _ n _ _ _ (Err msg) Hgood);
      [reflexivity | rewrite Hn; reflexivity].
  - intros n -> Hn.
    rewrite (convert_nsx_manager_list_stops _ _ _ n _ _ _ Panic Hgood);
      [reflexivity | rewrite Hn; reflexivity].
  - intros He.
    rewrite (convert_nsx_manager_list_not_map _ _ _ _ _ Hgood He). reflexivity.
Qed.

Lemma index_string_not_Err (object : gomap) (k msg : string) :
  result (index_string object k) <> Err msg.
Proof.
  unfold index_string, index. rewrite bind_step.
  destruct (at_key object k); discriminate.
Qed.

Lemma index_list_not_Err (object : gomap) (k msg : string) :
  result (index_list object k) <> Err msg.
Proof.
  unfold index_list, index. rewrite bind_step.
  destruct (at_key object k); discriminate.
Qed.

Lemma return_error_if_Err (cond : bool) (msg msg' : string) :
  result (return_error_if cond msg) = Err msg' -> msg' = msg.
Proof. destruct cond; [intros [= ->]; reflexivity | discriminate]. Qed.

Lemma optional_if_not_Err {R : Type} (v : value) (ok : bool)
    (set : string -> R) (r : R) (msg : string) :
  result (if ok && negb (IsEmpty v)
          then let* s := as_string v in ret (set s)
          else ret r) <> Err msg.
Proof.
  destruct (ok && negb (IsEmpty v)); [| discriminate].
  rewrite result_bind. destruct v; discriminate.
Qed.

(** X9.  An error of [TryConvertToNsxSpec] carries one of its own seven
    messages, or is the error the node converter returned for a map of the
    node list. *)
Theorem TryConvertToNsxSpec_errors (object : gomap) (msg : string) :
  result (TryConvertToNsxSpec IsEmpty TryConvertToNsxManagerNodeSpec object) = Err msg ->
  msg ∈ nsx_messages
  \/ exists nodes n,
       at_key object "nsx_manager_node" = VList nodes
       /\ VMap n ∈ nodes
       /\ TryConvertToNsxManagerNodeSpec n = Err msg.
Proof.
  unfold TryConvertToNsxSpec, nsx_messages. intros H.
  apply bind_Err_inv in H as [H | (? & _ & H)];
    [apply return_error_if_Err in H; subst; left; apply list_elem_of_In; simpl; tauto |].
  apply bind_Err_inv in H as [H | (? & _ & H)];
    [destruct (index_string_not_Err _ _ _ H) |].
  apply bind_Err_inv in H as [H | (? & _ & H)];
    [apply return_error_if_Err in H; subst; left; apply list_elem_of_In; simpl; tauto |].
  apply bind_Err_inv in H as [H | (? & _ & H)];
    [destruct (index_string_not_Err _ _ _ H) |].
  apply bind_Err_inv in H as [H | (? & _ & H)];
    [apply return_error_if_Err in H; subst; left; apply list_elem_of_In; simpl; tauto |].
  apply bind_Err_inv in H as [H | (? & _ & H)]; [discriminate H |].
  apply bind_Err_inv in H as [H | (? & _ & H)];
    [apply return_error_if_Err in H; subst; left; apply list_elem_of_In; simpl; tauto |].
  apply bind_Err_inv in H as [H | (? & _ & H)];
    [destruct (index_string_not_Err _ _ _ H) |].
  apply bind_Err_inv in H as [H | (? & _ & H)];
    [apply return_error_if_Err in H; subst; left; apply list_elem_of_In; simpl; tauto |].
  apply bind_Err_inv in H as [H | (? & _ & H)];
    [destruct (index_string_not_Err _ _ _ H) |].
  apply bind_Err_inv in H as [H | (? & _ & H)];
    [apply return_error_if_Err in H; subst; left; apply list_elem_of_In; simpl; tauto |].
  apply bind_Err_inv in H as [H | (p & _ & H)]; [discriminate H |].
  destruct p as (ff & okf).
  apply bind_Err_inv in H as [H | (? & _ & H)];
    [destruct (optional_if_not_Err _ _ _ _ _ H) |].
  apply bind_Err_inv in H as [H | (p & _ & H)]; [discriminate H |].
  destruct p as (au & oka).
  apply bind_Err_inv in H as [H | (? & _ & H)];
    [destruct (optional_if_not_Err _ _ _ _ _ H) |].
  apply bind_Err_inv in H as [H | (nodes & Hnodes & H)];
    [destruct (index_list_not_Err _ _ _ H) |].
  apply bind_Err_inv in H as [H | (? & _ & H)];
    [apply return_error_if_Err in H; subst; left; apply list_elem_of_In; simpl; tauto |].
  apply bind_Err_inv in H as [H | (? & _ & H)]; [| discriminate H].
  apply convert_nsx_manager_list_Err_inv in H as (n & Hin & Hn).
  right. exists nodes, n. split; [apply index_list_Ok, Hnodes | auto].
Qed.

End NsxOutcomes.

Section ReadLogs.
Variable IsEmpty : value -> bool.
Variable NsxManagerSpec : Type.
Variable TryConvertToNsxManagerNodeSpec : gomap -> outcome NsxManagerSpec.

Lemma reads_return_error_if (cond : bool) (msg : string) :
  reads (return_error_if cond msg) = [].
Proof. destruct cond; reflexivity. Qed.

Lemma reads_as_string (v : value) : reads (as_string v) = [].
Proof. destruct v; reflexivity. Qed.

Lemma reads_as_list (v : value) : reads (as_list v) = [].
Proof. destruct v; reflexivity. Qed.

Lemma reads_as_map (v : value) : reads (as_map v) = [].
Proof. destruct v; reflexivity. Qed.

Lemma reads_index (object : gomap) (k : string) : reads (index object k) = [k].
Proof. reflexivity. Qed.

Lemma reads_index_ok (object : gomap) (k : string) : reads (index_ok object k) = [k].
Proof. reflexivity. Qed.

Lemma reads_index_string (object : gomap) (k : string) :
  reads (index_string object k) = [k].
Proof.
  unfold index_string. rewrite reads_bind. cbn. rewrite reads_as_string. reflexivity.
Qed.

Lemma reads_index_list (object : gomap) (k : string) :
  reads (index_list object k) = [k].
Proof.
  unfold index_list. rewrite reads_bind. cbn. rewrite reads_as_list. reflexivity.
Qed.

Lemma reads_optional_if {R : Type} (v : value) (ok : bool) (set : string -> R) (r : R) :
  reads (if ok && negb (IsEmpty v)
         then let* s := as_string v in ret (set s)
         else ret r) = [].
Proof.
  destruct (ok && negb (IsEmpty v)); [| reflexivity].
  rewrite reads_bind, reads_as_string. destruct (result (as_string v)); reflexivity.
Qed.

Lemma reads_convert_nsx_manager_list (nodes : list value) (acc : list NsxManagerSpec) :
  reads (convert_nsx_manager_list TryConvertToNsxManagerNodeSpec nodes acc) = [].
Proof.
  revert acc. induction nodes as [| entry rest IH]; intros acc; [reflexivity |].
  cbn [convert_nsx_manager_list].
  rewrite reads_bind, reads_as_map. cbn [app].
  destruct (result (as_map entry)) as [n | |]; try reflexivity.
  rewrite reads_bind. cbn.
  destruct (TryConvertToNsxManagerNodeSpec n); try reflexivity. apply IH.
Qed.

Lemma reads_ret_prefix {A : Type} (a : A) (l : list string) : reads (ret a) `prefix_of` l.
Proof. apply prefix_nil. Qed.

Lemma TryConvertToVmNic_reads_prefix (object : gomap) :
  reads (TryConvertToVmNic IsEmpty object) `prefix_of` vmnic_keys.
Proof.
  unfold TryConvertToVmNic, vmnic_keys.
  apply (reads_bind_prefix _ _ [] _ (reads_return_error_if _ _)). intros _ _.
  apply (reads_bind_prefix _ _ ["id"] ["uplink"; "vds_name"] (reads_index_string _ _)).
  intros id _.
  apply (reads_bind_prefix _ _ [] _ (reads_return_error_if _ _)). intros _ _.
  cbv zeta.
  apply (reads_bind_prefix _ _ ["uplink"] ["vds_name"] (reads_index_ok _ _)). intros (v & ok) _.
  apply (reads_bind_prefix _ _ [] _ (reads_optional_if _ _ _ _)). intros r1 _.
  apply (reads_bind_prefix _ _ ["vds_name"] [] (reads_index_ok _ _)). intros (v' & ok') _.
  apply (reads_bind_prefix _ _ [] _ (reads_optional_if _ _ _ _)). intros r2 _.
  apply prefix_nil.
Qed.

Lemma TryConvertToNsxSpec_reads_prefix (object : gomap) :
  reads (TryConvertToNsxSpec IsEmpty TryConvertToNsxManagerNodeSpec object)
    `prefix_of` nsx_keys.
Proof.
  unfold TryConvertToNsxSpec, nsx_keys.
  apply (reads_bind_prefix _ _ [] _ (reads_return_error_if _ _)). intros _ _.
  apply (reads_bind_prefix _ _ ["vip"] _ (reads_index_string _ _)). intros vip _.
  apply (reads_bind_prefix _ _ [] _ (reads_return_error_if _ _)). intros _ _.
  apply (reads_bind_prefix _ _ ["vip_fqdn"] _ (reads_index_string _ _)). intros fqdn _.
  apply (reads_bind_prefix _ _ [] _ (reads_return_error_if _ _)). intros _ _.
  apply (reads_bind_prefix _ _ ["nsx_manager"] _ (reads_index _ _)). intros mgr _.
  apply (reads_bind_prefix _ _ [] _ (reads_return_error_if _ _)). intros _ _.
  apply (reads_bind_prefix _ _ ["nsx_manager_admin_password"] _ (reads_index_string _ _)).
  intros pw _.
  apply (reads_bind_prefix _ _ [] _ (reads_return_error_if _ _)). intros _ _.
  apply (reads_bind_prefix _ _ ["license_key"] _ (reads_index_string _ _)). intros key _.
  apply (reads_bind_prefix _ _ [] _ (reads_return_error_if _ _)). intros _ _.
  cbv zeta.
  apply (reads_bind_prefix _ _ ["form_factor"] _ (reads_index_ok _ _)). intros (v & ok) _.
  apply (reads_bind_prefix _ _ [] _ (reads_optional_if _ _ _ _)). intros r1 _.
  apply (reads_bind_prefix _ _ ["nsx_manager_audit_password"] _ (reads_index_ok _ _)).
  intros (v' & ok') _.
  apply (reads_bind_prefix _ _ [] _ (reads_optional_if _ _ _ _)). intros r2 _.
  apply (reads_bind_prefix _ _ ["nsx_manager_node"] [] (reads_index_list _ _)).
  intros nodes _.
  apply (reads_bind_prefix _ _ [] _ (reads_return_error_if _ _)). intros _ _.
  apply (reads_bind_prefix _ _ [] _ (reads_convert_nsx_manager_list _ _)). intros specs _.
  apply prefix_nil.
Qed.

Lemma VMNicSchema_keys (s : PkgVars) :
  dom (fst (VMNicSchema s)) = {[ "id"; "uplink"; "vds_name" ]}.
Proof.
  unfold VMNicSchema, built. cbn [fst].
  rewrite dom_list_to_map_L. cbn [fmap list_fmap fst list_to_set].
  rewrite (right_id_L ∅ (∪)). reflexivity.
Qed.

End ReadLogs.

Section ReadsAndSchemas.
Variable IsEmpty : value -> bool.
Variable NsxManagerSpec : Type.
Variable TryConvertToNsxManagerNodeSpec : gomap -> outcome NsxManagerSpec.

Lemma reads_bind_Ok_inv {A B : Type} (c : M A) (k : A -> M B) (b : B) :
  result (bind c k) = Ok b ->
  exists a, result c = Ok a /\ result (k a) = Ok b
            /\ reads (bind c k) = reads c ++ reads (k a).
Proof.
  intros H. destruct (bind_Ok_inv _ _ _ H) as (a & Ha & Hk).
  exists a. split; [exact Ha |]. split; [exact Hk |]. apply reads_bind_Ok, Ha.
Qed.

Lemma TryConvertToVmNic_reads_all (object : gomap) (nic : VMNic) :
  result (TryConvertToVmNic IsEmpty object) = Ok nic ->
  reads (TryConvertToVmNic IsEmpty object) = vmnic_keys.
Proof.
  unfold TryConvertToVmNic, vmnic_keys. intros H.
  apply reads_bind_Ok_inv in H as (? & _ & H & ->).
  rewrite reads_return_error_if.
  apply reads_bind_Ok_inv in H as (id & _ & H & ->).
  rewrite reads_index_string.
  apply reads_bind_Ok_inv in H as (? & _ & H & ->).
  rewrite reads_return_error_if.
  cbv zeta in H |- *.
  apply reads_bind_Ok_inv in H as ((v & ok) & _ & H & ->).
  rewrite reads_index_ok.
  apply reads_bind_Ok_inv in H as (r1 & _ & H & ->).
  rewrite reads_optional_if.
  apply reads_bind_Ok_inv in H as ((v' & ok') & _ & H & ->).
  rewrite reads_index_ok.
  apply reads_bind_Ok_inv in H as (r2 & _ & H & ->).
  rewrite reads_optional_if.
  reflexivity.
Qed.

(** X5.  [TryConvertToVmNic] indexes its argument with id, uplink and
    vds_name, in this order and stopping where it returns or panics: never
    with a key that [VMNicSchema] does not declare, and with every key of
    the schema when it succeeds. *)
Theorem TryConvertToVmNic_reads_schema_keys (object : gomap) (s : PkgVars) :
  (reads (TryConvertToVmNic IsEmpty object) `prefix_of` vmnic_keys)
  /\ (forall k, k ∈ reads (TryConvertToVmNic IsEmpty object) ->
                k ∈ dom (fst (VMNicSchema s)))
  /\ (forall nic, result (TryConvertToVmNic IsEmpty object) = Ok nic ->
        list_to_set (reads (TryConvertToVmNic IsEmpty object))
        = dom (fst (VMNicSchema s))).
Proof.
  split; [apply TryConvertToVmNic_reads_prefix |]. split.
  - intros k Hk. rewrite VMNicSchema_keys.
    destruct (TryConvertToVmNic_reads_prefix IsEmpty object) as (rest & Hrest).
    assert (Hin : k ∈ vmnic_keys) by (rewrite Hrest; apply elem_of_app; left; exact Hk).
    unfold vmnic_keys in Hin. set_unfold. tauto.
  - intros nic H. rewrite (TryConvertToVmNic_reads_all _ _ H), VMNicSchema_keys.
    unfold vmnic_keys. cbn [list_to_set]. rewrite (right_id_L ∅ (∪)). reflexivity.
Qed.

(** X10.  [TryConvertToNsxSpec] indexes its argument with the keys of
    [NsxSchema] and with [nsx_manager], which the schema does not declare;
    it reads that key on every map whose [vip] and [vip_fqdn] are in order. *)
Theorem TryConvertToNsxSpec_reads_stray_key (node : Resource) (s : PkgVars)
    (m : gmap string value) :
  (reads (TryConvertToNsxSpec IsEmpty TryConvertToNsxManagerNodeSpec (Some m))
     `prefix_of` nsx_keys)
  /\ (forall k,
        k ∈ reads (TryConvertToNsxSpec IsEmpty TryConvertToNsxManagerNodeSpec (Some m)) ->
        k ∈ dom (fst (NsxSchema node s)) \/ k = "nsx_manager")
  /\ ("nsx_manager" ∉ dom (fst (NsxSchema node s)))
  /\ (nonempty_string m "vip" -> nonempty_string m "vip_fqdn" ->
      "nsx_manager"
        ∈ reads (TryConvertToNsxSpec IsEmpty TryConvertToNsxManagerNodeSpec (Some m))).
Proof.
  split; [apply TryConvertToNsxSpec_reads_prefix |]. split; [| split].
  - intros k Hk. rewrite NsxSchema_keys.
    destruct (TryConvertToNsxSpec_reads_prefix IsEmpty _ TryConvertToNsxManagerNodeSpec
                (Some m)) as (rest & Hrest).
    assert (Hin : k ∈ nsx_keys) by (rewrite Hrest; apply elem_of_app; left; exact Hk).
    unfold nsx_keys in Hin. set_unfold. tauto.
  - rewrite NsxSchema_keys. set_unfold. intuition discriminate.
  - intros (vip & Hvip & Hvip0) (fqdn & Hfqdn & Hfqdn0).
    unfold TryConvertToNsxSpec.
    rewrite (reads_bind_Ok _ _ tt) by reflexivity.
    rewrite (reads_bind_Ok _ _ vip) by (apply index_string_is, at_key_Some, Hvip).
    apply len0_false in Hvip0. rewrite Hvip0.
    rewrite (reads_bind_Ok _ _ tt) by reflexivity.
    rewrite (reads_bind_Ok _ _ fqdn) by (apply index_string_is, at_key_Some, Hfqdn).
    apply len0_false in Hfqdn0. rewrite Hfqdn0.
    rewrite (reads_bind_Ok _ _ tt) by reflexivity.
    rewrite reads_bind.
    rewrite !reads_index_string, reads_index. cbn [reads return_error_if ret snd app].
    set_unfold. tauto.
Qed.

End ReadsAndSchemas.

Section FlattenFacts.

(** X11.  [FlattenNsxClusterRef] loses nothing: two references (or nil)
    with the same flattened map are the same. *)
Theorem FlattenNsxClusterRef_injective (r1 r2 : option NsxTClusterReference) :
  FlattenNsxClusterRef r1 = FlattenNsxClusterRef r2 -> r1 = r2.
Proof.
  assert (Hget : forall r : NsxTClusterReference,
             exists flat, FlattenNsxClusterRef (Some r) = Some (Some flat)
                          /\ flat !! "id" = Some (VString (Ref_ID r))
                          /\ flat !! "vip" = Some (VString (Ref_Vip r))
                          /\ flat !! "vip_fqdn" = Some (VString (Ref_VipFqdn r))).
  { intros r. eexists. split; [reflexivity |]. split; [| split].
    - rewrite lookup_insert_ne by discriminate.
      rewrite lookup_insert_ne by discriminate. apply lookup_insert_eq.
    - rewrite lookup_insert_ne by discriminate. apply lookup_insert_eq.
    - apply lookup_insert_eq. }
  destruct r1 as [r1 |], r2 as [r2 |]; intros H.
  - destruct (Hget r1) as (f1 & E1 & I1 & V1 & Q1).
    destruct (Hget r2) as (f2 & E2 & I2 & V2 & Q2).
    rewrite E1, E2 in H. injection H as ->.
    rewrite I2 in I1. rewrite V2 in V1. rewrite Q2 in Q1.
    destruct r1, r2. cbn in *. congruence.
  - destruct (Hget r1) as (f1 & E1 & I1 & _). rewrite E1 in H.
    cbn in H. injection H as ->. rewrite lookup_empty in I1. discriminate I1.
  - destruct (Hget r2) as (f2 & E2 & I2 & _). rewrite E2 in H.
    cbn in H. injection H as <-. rewrite lookup_empty in I2. discriminate I2.
  - reflexivity.
Qed.

Lemma NsxClusterRefSchema_lookup (s : PkgVars) (k : string) (sch : Schema) :
  fst (NsxClusterRefSchema s) !! k = Some sch ->
  (k = "id" \/ k = "vip" \/ k = "vip_fqdn")
  /\ Type_ sch = TypeString /\ Computed sch = true
  /\ Required sch = false /\ Optional sch = false.
Proof.
  unfold NsxClusterRefSchema, built. cbn [fst list_to_map foldr uncurry].
  intros H.
  destruct (decide (k = "id")) as [-> | N1].
  { rewrite lookup_insert_eq in H. injection H as <-. repeat split. auto. }
  rewrite lookup_insert_ne in H by congruence.
  destruct (decide (k = "vip")) as [-> | N2].
  { rewrite lookup_insert_eq in H. injection H as <-. repeat split. auto. }
  rewrite lookup_insert_ne in H by congruence.
  destruct (decide (k = "vip_fqdn")) as [-> | N3].
  { rewrite lookup_insert_eq in H. injection H as <-. repeat split. auto. }
  rewrite lookup_insert_ne, lookup_empty in H by congruence. discriminate H.
Qed.

Lemma NsxClusterRefSchema_keys (s : PkgVars) :
  dom (fst (NsxClusterRefSchema s)) = {[ "id"; "vip"; "vip_fqdn" ]}.
Proof.
  unfold NsxClusterRefSchema, built. cbn [fst].
  rewrite dom_list_to_map_L. cbn [fmap list_fmap fst list_to_set].
  rewrite (right_id_L ∅ (∪)). reflexivity.
Qed.

(** X12.  The map [FlattenNsxClusterRef] writes for a reference has
    exactly the attributes of [NsxClusterRefSchema], each a string as the
    schema types it, and each declared Computed. *)
Theorem FlattenNsxClusterRef_fits_schema (r : NsxTClusterReference) (s : PkgVars) :
  exists flat : gmap string value,
    FlattenNsxClusterRef (Some r) = Some (Some flat)
    /\ dom flat = dom (fst (NsxClusterRefSchema s))
    /\ forall k sch, fst (NsxClusterRefSchema s) !! k = Some sch ->
         Type_ sch = TypeString /\ Computed sch = true
         /\ exists str, flat !! k = Some (VString str).
Proof.
  eexists. split; [reflexivity |]. split.
  - rewrite NsxClusterRefSchema_keys, !dom_insert_L, dom_empty_L. set_solver.
  - intros k sch Hk.
    apply NsxClusterRefSchema_lookup in Hk as (Hkey & Ht & Hc & _).
    split; [exact Ht |]. split; [exact Hc |].
    destruct Hkey as [-> | [-> | ->]].
    + eexists. rewrite lookup_insert_ne by discriminate.
      rewrite lookup_insert_ne by discriminate. apply lookup_insert_eq.
    + eexists. rewrite lookup_insert_ne by discriminate. apply lookup_insert_eq.
    + eexists. apply lookup_insert_eq.
Qed.

End FlattenFacts.

Section PoolFacts.
Variable IsEmpty : value -> bool.
Variable ToStringPointer : value -> outcome (option string).
Variable ToInt32Pointer : value -> outcome (option Z).
Variable ToBoolPointer : value -> outcome (option bool).
Variable int64_of_float64 : spec_float -> Z.

Local Abbreviation pool_spec :=
  (resource_pool_spec ToStringPointer ToInt32Pointer ToBoolPointer int64_of_float64).

Lemma int32_of_int_range (z : Z) : in_int32 (int32_of_int z).
Proof.
  unfold in_int32, int32_of_int.
  pose proof (Z.mod_pos_bound (z + 2147483648) 4294967296 eq_refl). lia.
Qed.

Lemma int32_of_int_id (z : Z) : in_int32 z -> int32_of_int z = z.
Proof.
  unfold in_int32, int32_of_int. intros H.
  rewrite Z.mod_small by lia. lia.
Qed.

Lemma int32_of_int_congruent (z : Z) :
  exists q : Z, (int32_of_int z = z - q * 4294967296)%Z.
Proof.
  unfold int32_of_int. exists ((z + 2147483648) / 4294967296)%Z.
  pose proof (Z.div_mod (z + 2147483648) 4294967296 ltac:(lia)). lia.
Qed.

Lemma index_float64_Ok (object : gomap) (k : string) (f : spec_float) :
  result (index_float64 object k) = Ok f <-> at_key object k = VFloat f.
Proof.
  unfold index_float64, index. rewrite bind_step.
  destruct (at_key object k); split; try discriminate; intros [= ->]; reflexivity.
Qed.

Lemma index_bool_Ok (object : gomap) (k : string) (b : bool) :
  result (index_bool object k) = Ok b <-> at_key object k = VBool b.
Proof.
  unfold index_bool, index. rewrite bind_step.
  destruct (at_key object k); split; try discriminate; intros [= ->]; reflexivity.
Qed.

Lemma index_int_Ok (object : gomap) (k : string) (z : Z) :
  result (index_int object k) = Ok z <-> at_key object k = VInt z.
Proof.
  unfold index_int, index. rewrite bind_step.
  destruct (at_key object k); split; try discriminate; intros [= ->]; reflexivity.
Qed.

Lemma index_string_Ok_iff (object : gomap) (k s : string) :
  result (index_string object k) = Ok s <-> at_key object k = VString s.
Proof. split; [apply index_string_Ok | apply index_string_is]. Qed.

Lemma index_list_Ok_iff (object : gomap) (k : string) (l : list value) :
  result (index_list object k) = Ok l <-> at_key object k = VList l.
Proof. split; [apply index_list_Ok | apply index_list_is]. Qed.

Lemma lift_Ok {A : Type} (o : outcome A) (a : A) : result (lift o) = Ok a <-> o = Ok a.
Proof. reflexivity. Qed.

(** What a pool that converts went through. *)
Lemma resource_pool_spec_Ok_inv (resourcePool : value) (spec : ResourcePoolSpec) :
  result (pool_spec resourcePool) = Ok spec ->
  exists data, resourcePool = VMap data
               /\ pool_entries ToStringPointer ToInt32Pointer ToBoolPointer
                    int64_of_float64 data spec.
Proof.
  unfold resource_pool_spec, pool_entries.
  intros H.
  apply bind_Ok_inv in H as (data & Hd & H).
  destruct resourcePool; try discriminate Hd. injection Hd as ->.
  apply bind_Ok_inv in H as (cl & H1 & H). apply index_float64_Ok in H1.
  apply bind_Ok_inv in H as (cre & H2 & H). apply index_bool_Ok in H2.
  apply bind_Ok_inv in H as (crm & H3 & H). apply index_float64_Ok in H3.
  apply bind_Ok_inv in H as (v4 & E4 & H). injection E4 as <-.
  apply bind_Ok_inv in H as (crp & H4 & H). apply lift_Ok in H4.
  apply bind_Ok_inv in H as (csl & H5 & H). apply index_string_Ok in H5.
  apply bind_Ok_inv in H as (csv & H6 & H). apply index_int_Ok in H6.
  apply bind_Ok_inv in H as (ml & H7 & H). apply index_float64_Ok in H7.
  apply bind_Ok_inv in H as (v8 & E8 & H). injection E8 as <-.
  apply bind_Ok_inv in H as (mrp & H8 & H). apply lift_Ok in H8.
  apply bind_Ok_inv in H as (v9 & E9 & H). injection E9 as <-.
  apply bind_Ok_inv in H as (mre & H9 & H). apply lift_Ok in H9.
  apply bind_Ok_inv in H as (mrm & H10 & H). apply index_float64_Ok in H10.
  apply bind_Ok_inv in H as (msl & H11 & H). apply index_string_Ok in H11.
  apply bind_Ok_inv in H as (msv & H12 & H). apply index_int_Ok in H12.
  apply bind_Ok_inv in H as (v13 & E13 & H). injection E13 as <-.
  apply bind_Ok_inv in H as (name & H13 & H). apply lift_Ok in H13.
  apply bind_Ok_inv in H as (ty & H14 & H). apply index_string_Ok in H14.
  injection H as <-. cbn.
  exists data. split; [reflexivity |].
  exists cl, crm, ml, mrm, csv, msv. repeat split; assumption.
Qed.

(** A map with these entries converts. *)
Lemma resource_pool_spec_runs (data : gomap) (spec : ResourcePoolSpec) :
  pool_entries ToStringPointer ToInt32Pointer ToBoolPointer int64_of_float64 data spec ->
  result (pool_spec (VMap data)) = Ok spec.
Proof.
  unfold resource_pool_spec, pool_entries.
  intros (cl & crm & ml & mrm & csv & msv
          & H1 & H2 & H3 & H4 & H5 & H6 & H7 & H8 & H9 & H10 & H11 & H12 & H13 & H14
          & E1 & E2 & E3 & E4 & E5 & E6).
  rewrite (bind_Ok _ _ data) by reflexivity.
  rewrite (bind_Ok _ _ cl) by (apply index_float64_Ok, H1).
  rewrite (bind_Ok _ _ _ (proj2 (index_bool_Ok _ _ _) H2)).
  rewrite (bind_Ok _ _ crm) by (apply index_float64_Ok, H3).
  rewrite (bind_Ok _ _ (at_key data "cpu_reservation_percentage")) by reflexivity.
  rewrite (bind_Ok _ _ _ (proj2 (lift_Ok _ _) H4)).
  rewrite (bind_Ok _ _ _ (index_string_is _ _ _ H5)).
  rewrite (bind_Ok _ _ csv) by (apply index_int_Ok, H6).
  rewrite (bind_Ok _ _ ml) by (apply index_float64_Ok, H7).
  rewrite (bind_Ok _ _ (at_key data "memory_reservation_percentage")) by reflexivity.
  rewrite (bind_Ok _ _ _ (proj2 (lift_Ok _ _) H8)).
  rewrite (bind_Ok _ _ (at_key data "memory_reservation_expandable")) by reflexivity.
  rewrite (bind_Ok _ _ _ (proj2 (lift_Ok _ _) H9)).
  rewrite (bind_Ok _ _ mrm) by (apply index_float64_Ok, H10).
  rewrite (bind_Ok _ _ _ (index_string_is _ _ _ H11)).
  rewrite (bind_Ok _ _ msv) by (apply index_int_Ok, H12).
  rewrite (bind_Ok _ _ (at_key data "name")) by reflexivity.
  rewrite (bind_Ok _ _ _ (proj2 (lift_Ok _ _) H13)).
  rewrite (bind_Ok _ _ _ (index_string_is _ _ _ H14)).
  rewrite <- E1, <- E2, <- E3, <- E4, <- E5, <- E6.
  destruct spec. reflexivity.
Qed.

(** X14.  A pool converts exactly when it is a map in which every
    attribute asserted has its Go type and on which the pointer helpers
    succeed; each field of the spec then comes from the attribute of the
    same name, the limits and reservations through [int64], the shares
    values through [int32]. *)
Theorem resource_pool_spec_iff (resourcePool : value) (spec : ResourcePoolSpec) :
  result (pool_spec resourcePool) = Ok spec
  <-> exists data, resourcePool = VMap data /\ pool_entries ToStringPointer ToInt32Pointer ToBoolPointer
                     int64_of_float64 data spec.
Proof.
  split.
  - apply resource_pool_spec_Ok_inv.
  - intros (data & -> & H). apply resource_pool_spec_runs, H.
Qed.

End PoolFacts.

Section PoolListFacts.
Variable IsEmpty : value -> bool.
Variable ToStringPointer : value -> outcome (option string).
Variable ToInt32Pointer : value -> outcome (option Z).
Variable ToBoolPointer : value -> outcome (option bool).
Variable int64_of_float64 : spec_float -> Z.

Local Abbreviation pool_spec :=
  (resource_pool_spec ToStringPointer ToInt32Pointer ToBoolPointer int64_of_float64).
Local Abbreviation pool_loop :=
  (resource_pool_loop ToStringPointer ToInt32Pointer ToBoolPointer int64_of_float64).
Local Abbreviation pool_specs :=
  (getResourcePoolSpecsFromSchema ToStringPointer ToInt32Pointer ToBoolPointer
     int64_of_float64).

Lemma resource_pool_loop_Ok (rawData : list value) (acc specs : list ResourcePoolSpec) :
  result (pool_loop rawData acc) = Ok specs
  <-> exists new, specs = acc ++ new
                  /\ Forall2 (fun pool spec => result (pool_spec pool) = Ok spec)
                             rawData new.
Proof.
  revert acc. induction rawData as [| pool rest IH]; intros acc.
  - cbn [resource_pool_loop]. split.
    + intros [= <-]. exists []. split; [symmetry; apply app_nil_r | constructor].
    + intros (new & -> & Hall). inversion Hall. rewrite app_nil_r. reflexivity.
  - cbn [resource_pool_loop]. split.
    + intros H. apply bind_Ok_inv in H as (spec & Hs & H).
      apply IH in H as (new & -> & Hall).
      exists (spec :: new). split.
      * rewrite <- app_assoc. reflexivity.
      * constructor; assumption.
    + intros (new & -> & Hall). inversion Hall as [| ? spec ? new' Hs Hall']. subst.
      rewrite (bind_Ok _ _ spec Hs). apply IH.
      exists new'. split; [rewrite <- app_assoc; reflexivity | exact Hall'].
Qed.

(** X13.  [getResourcePoolSpecsFromSchema] returns a list exactly when
    every pool converts, and the list then holds the pools' specs one for
    one, in order. *)
Theorem getResourcePoolSpecsFromSchema_iff (rawData : list value)
    (specs : list ResourcePoolSpec) :
  result (pool_specs rawData) = Ok specs
  <-> Forall2 (fun pool spec => result (pool_spec pool) = Ok spec) rawData specs.
Proof.
  unfold getResourcePoolSpecsFromSchema. rewrite resource_pool_loop_Ok. split.
  - intros (new & -> & H). exact H.
  - intros H. exists specs. split; [reflexivity | exact H].
Qed.

(** X15.  The shares values of a converted pool are the map's integers
    cut to 32 bits: always within [int32], and equal to the map's integer
    only when that is within [int32]. *)
Theorem resource_pool_shares_value_wraps (data : gomap) (spec : ResourcePoolSpec) :
  result (pool_spec (VMap data)) = Ok spec ->
  exists cpu memory,
    at_key data "cpu_shares_value" = VInt cpu
    /\ at_key data "memory_shares_value" = VInt memory
    /\ CPUSharesValue spec = int32_of_int cpu
    /\ MemorySharesValue spec = int32_of_int memory
    /\ in_int32 (CPUSharesValue spec) /\ in_int32 (MemorySharesValue spec)
    /\ (in_int32 cpu -> CPUSharesValue spec = cpu)
    /\ (in_int32 memory -> MemorySharesValue spec = memory).
Proof.
  intros H. apply resource_pool_spec_Ok_inv in H as (data' & [= <-] & H).
  destruct H as (cl & crm & ml & mrm & csv & msv
                 & _ & _ & _ & _ & _ & H6 & _ & _ & _ & _ & _ & H12 & _ & _
                 & _ & _ & _ & _ & E5 & E6).
  exists csv, msv. rewrite E5, E6.
  split; [exact H6 |]. split; [exact H12 |].
  split; [reflexivity |]. split; [reflexivity |].
  split; [apply int32_of_int_range |]. split; [apply int32_of_int_range |].
  split; apply int32_of_int_id.
Qed.

End PoolListFacts.

Section ClusterFacts.
Variable IsEmpty : value -> bool.
Variable ToStringPointer : value -> outcome (option string).
Variable ToInt32Pointer : value -> outcome (option Z).
Variable ToBoolPointer : value -> outcome (option bool).
Variable int64_of_float64 : spec_float -> Z.

Local Abbreviation pool_spec :=
  (resource_pool_spec ToStringPointer ToInt32Pointer ToBoolPointer int64_of_float64).
Local Abbreviation pool_specs :=
  (getResourcePoolSpecsFromSchema ToStringPointer ToInt32Pointer ToBoolPointer
     int64_of_float64).
Local Abbreviation cluster_spec_from :=
  (GetSddcClusterSpecFromSchema IsEmpty ToStringPointer ToInt32Pointer ToBoolPointer
     int64_of_float64).

Lemma as_strmap_Ok (v : value) (x : option (gmap string string)) :
  result (as_strmap v) = Ok x <-> v = VStrMap x.
Proof. destruct v; split; try discriminate; intros [= ->]; reflexivity. Qed.

(** What a returned result tells: the first element is a map, the result
    is not nil, and the map's entries are the ones the spec was built
    from. *)
Lemma GetSddcClusterSpecFromSchema_Ok_inv (first : value) (rest : list value)
    (r : option SDDCClusterSpec) :
  result (cluster_spec_from (first :: rest)) = Ok r ->
  exists data spec,
    r = Some spec /\ first = VMap data
    /\ cluster_entries IsEmpty ToStringPointer ToInt32Pointer ToBoolPointer
         int64_of_float64 data spec.
Proof.
  unfold GetSddcClusterSpecFromSchema, cluster_entries. cbn [length Nat.leb].
  change (first_element (first :: rest)) with (@ret value first).
  rewrite (bind_Ok _ _ first) by reflexivity.
  intros H.
  apply bind_Ok_inv in H as (data & Hd & H).
  destruct first; try discriminate Hd. injection Hd as ->.
  apply bind_Ok_inv in H as (v1 & E1 & H). injection E1 as <-.
  apply bind_Ok_inv in H as (name & H1 & H). apply lift_Ok in H1.
  apply bind_Ok_inv in H as (evc & H2 & H). apply index_string_Ok in H2.
  apply bind_Ok_inv in H as (v3 & E3 & H). injection E3 as <-.
  apply bind_Ok_inv in H as (hft & H3 & H). apply lift_Ok in H3.
  apply bind_Ok_inv in H as (v4 & E4 & H). injection E4 as <-.
  apply bind_Ok_inv in H as (folder & H4 & H).
  cbv zeta in H.
  apply bind_Ok_inv in H as (pools & H5 & H). apply index_list_Ok in H5.
  apply bind_Ok_inv in H as (specs & H6 & H).
  unfold getResourcePoolSpecsFromSchema in H6.
  apply (proj1 (resource_pool_loop_Ok _ _ _ _ _ _ _)) in H6 as (new & Hnew & H6).
  cbn [app] in Hnew. subst new.
  injection H as <-.
  eexists data, _. split; [reflexivity |]. split; [reflexivity |].
  assert (Hspecs :
    ResourcePoolSpecs
      (if (0 <? length specs)%nat
       then mkSDDCClusterSpec evc name hft folder specs
       else mkSDDCClusterSpec evc name hft folder []) = specs).
  { destruct specs; reflexivity. }
  destruct (0 <? length specs)%nat; cbn in Hspecs |- *; subst.
  all: split; [exact H1 |]; split; [exact H2 |]; split; [exact H3 |].
  all: split; [| eauto].
  all: change (default VNil (data ≫= lookup "vm_folder"))
         with (at_key data "vm_folder") in *.
  all: fold (at_key data "vm_folder") in H4 |- *.
  all: destruct (IsEmpty (at_key data "vm_folder")); cbn in H4.
  all: try (injection H4 as <-; reflexivity).
  all: apply bind_Ok_inv in H4 as (v & Ev & H4); injection Ev as <-;
       apply as_strmap_Ok in H4; exact H4.
Qed.

(** A map with such entries in first place is converted to the spec. *)
Lemma GetSddcClusterSpecFromSchema_runs (data : gomap) (rest : list value)
    (spec : SDDCClusterSpec) :
  cluster_entries IsEmpty ToStringPointer ToInt32Pointer ToBoolPointer
    int64_of_float64 data spec ->
  result (cluster_spec_from (VMap data :: rest)) = Ok (Some spec).
Proof.
  unfold GetSddcClusterSpecFromSchema, cluster_entries. cbn [length Nat.leb].
  change (first_element (VMap data :: rest)) with (@ret value (VMap data)).
  rewrite (bind_Ok _ _ (VMap data)) by reflexivity.
  intros (H1 & H2 & H3 & H4 & pools & H5 & H6).
  rewrite (bind_Ok _ _ data) by reflexivity.
  rewrite (bind_Ok _ _ (at_key data "cluster_name")) by reflexivity.
  rewrite (bind_Ok _ _ _ (proj2 (lift_Ok _ _) H1)).
  rewrite (bind_Ok _ _ _ (index_string_is _ _ _ H2)).
  rewrite (bind_Ok _ _ (at_key data "host_failures_to_tolerate")) by reflexivity.
  rewrite (bind_Ok _ _ _ (proj2 (lift_Ok _ _) H3)).
  rewrite (bind_Ok _ _ (at_key data "vm_folder")) by reflexivity.
  rewrite (bind_Ok _ _ (VMFolders spec)).
  2:{ destruct (IsEmpty (at_key data "vm_folder")); cbn [negb].
      - rewrite H4. reflexivity.
      - rewrite (bind_Ok _ _ (at_key data "vm_folder")) by reflexivity.
        apply as_strmap_Ok, H4. }
  cbv zeta.
  rewrite (bind_Ok _ _ _ (index_list_is _ _ _ H5)).
  rewrite (bind_Ok _ _ (ResourcePoolSpecs spec))
    by (unfold getResourcePoolSpecsFromSchema;
        apply (proj2 (resource_pool_loop_Ok _ _ _ _ _ _ _));
        exists (ResourcePoolSpecs spec); split; [reflexivity | exact H6]).
  destruct spec as [evc name hft folder specs]. cbn.
  destruct specs; reflexivity.
Qed.


(** X17.  On a non-empty list [GetSddcClusterSpecFromSchema] returns
    exactly when the first element is a map whose [cluster_evc_mode] is a
    string, whose [resource_pool] is a list of pools that all convert,
    whose [vm_folder] is empty or a [map[string]string], and on which the
    pointer helpers succeed; the result is then a spec with these values,
    [VMFolders] nil for an empty [vm_folder]. *)
Theorem GetSddcClusterSpecFromSchema_iff (first : value) (rest : list value)
    (r : option SDDCClusterSpec) :
  result (cluster_spec_from (first :: rest)) = Ok r
  <-> exists data spec,
        r = Some spec /\ first = VMap data
        /\ cluster_entries IsEmpty ToStringPointer ToInt32Pointer ToBoolPointer
             int64_of_float64 data spec.
Proof.
  split.
  - apply GetSddcClusterSpecFromSchema_Ok_inv.
  - intros (data & spec & -> & -> & H). apply GetSddcClusterSpecFromSchema_runs, H.
Qed.


(** A [vm_folder] that is not empty and no [map[string]string] makes the
    assertion panic. *)
Lemma GetSddcClusterSpecFromSchema_vm_folder_panics (data : gomap)
    (rest : list value) (name : option string) (evc : string) (hft : option Z) :
  ToStringPointer (at_key data "cluster_name") = Ok name ->
  at_key data "cluster_evc_mode" = VString evc ->
  ToInt32Pointer (at_key data "host_failures_to_tolerate") = Ok hft ->
  IsEmpty (at_key data "vm_folder") = false ->
  (forall x, at_key data "vm_folder" <> VStrMap x) ->
  result (cluster_spec_from (VMap data :: rest)) = Panic.
Proof.
  intros H1 H2 H3 H4 H5.
  unfold GetSddcClusterSpecFromSchema. cbn [length Nat.leb].
  change (first_element (VMap data :: rest)) with (@ret value (VMap data)).
  rewrite (bind_Ok _ _ (VMap data)) by reflexivity.
  rewrite (bind_Ok _ _ data) by reflexivity.
  rewrite (bind_Ok _ _ (at_key data "cluster_name")) by reflexivity.
  rewrite (bind_Ok _ _ _ (proj2 (lift_Ok _ _) H1)).
  rewrite (bind_Ok _ _ _ (index_string_is _ _ _ H2)).
  rewrite (bind_Ok _ _ (at_key data "host_failures_to_tolerate")) by reflexivity.
  rewrite (bind_Ok _ _ _ (proj2 (lift_Ok _ _) H3)).
  rewrite (bind_Ok _ _ (at_key data "vm_folder")) by reflexivity.
  apply bind_Panic. rewrite H4. cbn [negb].
  rewrite (bind_Ok _ _ (at_key data "vm_folder")) by reflexivity.
  destruct (at_key data "vm_folder"); try reflexivity.
  exfalso. eapply H5. reflexivity.
Qed.

Lemma cluster_schema_vm_folder (s : PkgVars) :
  Type_ <$> (element_resource (fst (GetSddcClusterSchema s)) !! "vm_folder")
  = Some TypeMap.
Proof. reflexivity. Qed.

(** X18.  [GetSddcClusterSchema] declares [vm_folder] a [TypeMap], which
    arrives as a [map[string]interface{}], while the converter asserts a
    [map[string]string]: on a cluster whose [vm_folder] has the schema's
    type and is not empty, the call panics once the entries before it are
    read. *)
Theorem GetSddcClusterSpecFromSchema_schema_vm_folder (s : PkgVars) (sch : Schema)
    (data : gomap) (rest : list value) (name : option string) (evc : string)
    (hft : option Z) :
  element_resource (fst (GetSddcClusterSchema s)) !! "vm_folder" = Some sch ->
  has_type (Type_ sch) (at_key data "vm_folder") ->
  IsEmpty (at_key data "vm_folder") = false ->
  ToStringPointer (at_key data "cluster_name") = Ok name ->
  at_key data "cluster_evc_mode" = VString evc ->
  ToInt32Pointer (at_key data "host_failures_to_tolerate") = Ok hft ->
  result (cluster_spec_from (VMap data :: rest)) = Panic.
Proof.
  intros Hsch Hty He H1 H2 H3.
  pose proof (cluster_schema_vm_folder s) as Ht.
  rewrite Hsch in Ht. injection Ht as Ht. rewrite Ht in Hty.
  apply (GetSddcClusterSpecFromSchema_vm_folder_panics _ _ _ _ _ H1 H2 H3 He).
  intros x Hx. rewrite Hx in Hty. exact Hty.
Qed.

End ClusterFacts.

Section PoolSchemaFacts.
Variable ToStringPointer : value -> outcome (option string).
Variable ToInt32Pointer : value -> outcome (option Z).
Variable ToBoolPointer : value -> outcome (option bool).
Variable int64_of_float64 : spec_float -> Z.

Local Abbreviation pool_spec :=
  (resource_pool_spec ToStringPointer ToInt32Pointer ToBoolPointer int64_of_float64).

Lemma reads_index_float64 (object : gomap) (k : string) :
  reads (index_float64 object k) = [k].
Proof.
  unfold index_float64. rewrite reads_bind. cbn.
  destruct (at_key object k); reflexivity.
Qed.

Lemma reads_index_bool (object : gomap) (k : string) :
  reads (index_bool object k) = [k].
Proof.
  unfold index_bool. rewrite reads_bind. cbn.
  destruct (at_key object k); reflexivity.
Qed.

Lemma reads_index_int (object : gomap) (k : string) :
  reads (index_int object k) = [k].
Proof.
  unfold index_int. rewrite reads_bind. cbn.
  destruct (at_key object k); reflexivity.
Qed.

Lemma resource_pool_spec_reads (data : gomap) (spec : ResourcePoolSpec) :
  result (pool_spec (VMap data)) = Ok spec ->
  reads (pool_spec (VMap data)) = pool_keys.
Proof.
  unfold resource_pool_spec, pool_keys. intros H.
  apply reads_bind_Ok_inv in H as (d & Hd & H & ->). injection Hd as <-.
  apply reads_bind_Ok_inv in H as (? & _ & H & ->). rewrite reads_index_float64.
  apply reads_bind_Ok_inv in H as (? & _ & H & ->). rewrite reads_index_bool.
  apply reads_bind_Ok_inv in H as (? & _ & H & ->). rewrite reads_index_float64.
  apply reads_bind_Ok_inv in H as (? & _ & H & ->). rewrite reads_index.
  apply reads_bind_Ok_inv in H as (? & _ & H & ->).
  apply reads_bind_Ok_inv in H as (? & _ & H & ->). rewrite reads_index_string.
  apply reads_bind_Ok_inv in H as (? & _ & H & ->). rewrite reads_index_int.
  apply reads_bind_Ok_inv in H as (? & _ & H & ->). rewrite reads_index_float64.
  apply reads_bind_Ok_inv in H as (? & _ & H & ->). rewrite reads_index.
  apply reads_bind_Ok_inv in H as (? & _ & H & ->).
  apply reads_bind_Ok_inv in H as (? & _ & H & ->). rewrite reads_index.
  apply reads_bind_Ok_inv in H as (? & _ & H & ->).
  apply reads_bind_Ok_inv in H as (? & _ & H & ->). rewrite reads_index_float64.
  apply reads_bind_Ok_inv in H as (? & _ & H & ->). rewrite reads_index_string.
  apply reads_bind_Ok_inv in H as (? & _ & H & ->). rewrite reads_index_int.
  apply reads_bind_Ok_inv in H as (? & _ & H & ->). rewrite reads_index.
  apply reads_bind_Ok_inv in H as (? & _ & H & ->).
  apply reads_bind_Ok_inv in H as (? & _ & H & ->). rewrite reads_index_string.
  reflexivity.
Qed.

Lemma pool_schema_keys (s : PkgVars) :
  dom (element_resource (fst (getResourcePoolSchema s))) = list_to_set pool_keys.
Proof.
  unfold getResourcePoolSchema, element_resource, and_then, read_var, built, lit.
  cbn [fst snd fold_left set_Type set_Optional set_Elem Elem].
  rewrite dom_list_to_map_L. cbn [fmap list_fmap fst list_to_set pool_keys].
  apply set_eq. intros k. set_unfold. tauto.
Qed.

(** X16.  A pool that converts was indexed with exactly the attributes
    that [getResourcePoolSchema] declares, and each attribute the converter
    asserts itself holds a value of the Go type of its schema type. *)
Theorem resource_pool_spec_follows_schema (s : PkgVars) (data : gomap)
    (spec : ResourcePoolSpec) :
  result (pool_spec (VMap data)) = Ok spec ->
  list_to_set (reads (pool_spec (VMap data)))
  = dom (element_resource (fst (getResourcePoolSchema s)))
  /\ forall k, k ∈ asserted_pool_keys ->
       exists sch,
         element_resource (fst (getResourcePoolSchema s)) !! k = Some sch
         /\ has_type (Type_ sch) (at_key data k).
Proof.
  intros H. split.
  - rewrite (resource_pool_spec_reads _ _ H), pool_schema_keys. reflexivity.
  - apply resource_pool_spec_Ok_inv in H as (data' & [= <-] & H).
    destruct H as (cl & crm & ml & mrm & csv & msv
                   & H1 & H2 & H3 & _ & H5 & H6 & H7 & _ & _ & H10 & H11 & H12 & _ & H14
                   & _).
    intros k Hk. unfold asserted_pool_keys in Hk.
    repeat (apply elem_of_cons in Hk as [-> | Hk]).
    11: { apply elem_of_nil in Hk. destruct Hk. }
    all: eexists; split; [reflexivity |].
    + rewrite H1. exact I.
    + rewrite H2. exact I.
    + rewrite H3. exact I.
    + rewrite H5. exact I.
    + rewrite H6. exact I.
    + rewrite H7. exact I.
    + rewrite H10. exact I.
    + rewrite H11. exact I.
    + rewrite H12. exact I.
    + rewrite H14. exact I.
Qed.

End PoolSchemaFacts.

Section DestroyFacts.
Variable GetDomain : string -> domain_reply.
Variable quoted : string -> string.

Lemma check_resources_passed_over (pre rest : list ResourceState) :
  Forall (passed_over GetDomain) pre ->
  check_resources GetDomain quoted (pre ++ rest)
  = check_resources GetDomain quoted rest.
Proof.
  induction 1 as [| rs pre Hrs _ IH]; [reflexivity |].
  cbn [app check_resources].
  destruct Hrs as [Hty | (attributes & Hp & Hr)].
  - apply String.eqb_neq in Hty. rewrite Hty. exact IH.
  - destruct (negb (rs_Type rs =? "vcf_domain")%string); [exact IH |].
    rewrite Hp, Hr. exact IH.
Qed.

Lemma check_resources_domain (rs : ResourceState) (rest : list ResourceState)
    (reply : domain_reply) :
  domain_answering GetDomain rs reply ->
  check_resources GetDomain quoted (rs :: rest)
  = match reply with
    | ReplyError => Ok tt
    | ReplyPayload =>
        Err ("domain with id " +:+ quoted (domain_id rs) +:+ " not destroyed")
    | ReplyNothing => check_resources GetDomain quoted rest
    end.
Proof.
  intros (Hty & attributes & Hp & Hr). cbn [check_resources].
  apply String.eqb_eq in Hty. rewrite Hty. cbn [negb].
  unfold domain_id. rewrite Hp, Hr. reflexivity.
Qed.

(** Where the loop stops, if it does. *)
Lemma check_resources_cases (resources : list ResourceState) :
  Forall (passed_over GetDomain) resources
  \/ exists pre rs post,
       resources = pre ++ rs :: post
       /\ Forall (passed_over GetDomain) pre
       /\ (domain_answering GetDomain rs ReplyError
           \/ domain_answering GetDomain rs ReplyPayload
           \/ (rs_Type rs = "vcf_domain" /\ rs_Primary rs = None)).
Proof.
  induction resources as [| rs rest IH]; [left; constructor |].
  assert (Hrs : passed_over GetDomain rs
                \/ domain_answering GetDomain rs ReplyError
                \/ domain_answering GetDomain rs ReplyPayload
                \/ (rs_Type rs = "vcf_domain" /\ rs_Primary rs = None)).
  { unfold passed_over, domain_answering.
    destruct (String.eqb_spec (rs_Type rs) "vcf_domain") as [Hty | Hty];
      [| left; left; exact Hty].
    destruct (rs_Primary rs) as [attributes |] eqn:Hp; [| auto].
    destruct (GetDomain (attribute attributes "id")) eqn:Hr.
    - right. left. eauto.
    - left. right. eauto.
    - right. right. left. eauto. }
  destruct Hrs as [Hrs | Hrs].
  - destruct IH as [IH | (pre & rs' & post & -> & Hpre & Hstop)].
    + left. constructor; assumption.
    + right. exists (rs :: pre), rs', post.
      split; [reflexivity |]. split; [constructor; assumption | exact Hstop].
  - right. exists [], rs, rest. split; [reflexivity |]. split; [constructor | exact Hrs].
Qed.

Lemma check_resources_all_passed (resources : list ResourceState) :
  Forall (passed_over GetDomain) resources ->
  check_resources GetDomain quoted resources = Ok tt.
Proof.
  intros H. rewrite <- (app_nil_r resources).
  rewrite (check_resources_passed_over _ _ H). reflexivity.
Qed.

Lemma check_resources_no_primary (rs : ResourceState) (rest : list ResourceState) :
  rs_Type rs = "vcf_domain" -> rs_Primary rs = None ->
  check_resources GetDomain quoted (rs :: rest) = Panic.
Proof.
  intros Hty Hp. cbn [check_resources].
  apply String.eqb_eq in Hty. rewrite Hty, Hp. reflexivity.
Qed.

(** X19.  The destroy check returns an error exactly when, in the order
    the resources are visited, a domain that the SDK still finds comes
    before any failing lookup; the message names that domain's id. *)
Theorem testCheckVcfDomainDestroy_error (resources : list ResourceState) (msg : string) :
  testCheckVcfDomainDestroy (Some GetDomain) quoted (Some resources) = Err msg
  <-> exists pre rs post,
        resources = pre ++ rs :: post
        /\ Forall (passed_over GetDomain) pre
        /\ domain_answering GetDomain rs ReplyPayload
        /\ msg = "domain with id " +:+ quoted (domain_id rs) +:+ " not destroyed".
Proof.
  cbn [testCheckVcfDomainDestroy]. split.
  - intros H.
    destruct (check_resources_cases resources)
      as [Hall | (pre & rs & post & -> & Hpre & [Hs | [Hs | (Hty & Hp)]])].
    + rewrite (check_resources_all_passed _ Hall) in H. discriminate H.
    + rewrite (check_resources_passed_over _ _ Hpre),
        (check_resources_domain _ _ _ Hs) in H. discriminate H.
    + rewrite (check_resources_passed_over _ _ Hpre),
        (check_resources_domain _ _ _ Hs) in H. injection H as <-.
      exists pre, rs, post. auto.
    + rewrite (check_resources_passed_over _ _ Hpre),
        (check_resources_no_primary _ _ Hty Hp) in H. discriminate H.
  - intros (pre & rs & post & -> & Hpre & Hs & ->).
    rewrite (check_resources_passed_over _ _ Hpre).
    apply (check_resources_domain _ _ _ Hs).
Qed.

(** X20.  The destroy check passes exactly when every resource is passed
    over (no domain, or a domain no longer found), or when the first
    resource that is not passed over is a domain whose lookup fails. *)
Theorem testCheckVcfDomainDestroy_passes (resources : list ResourceState) :
  testCheckVcfDomainDestroy (Some GetDomain) quoted (Some resources) = Ok tt
  <-> Forall (passed_over GetDomain) resources
      \/ exists pre rs post,
           resources = pre ++ rs :: post
           /\ Forall (passed_over GetDomain) pre
           /\ domain_answering GetDomain rs ReplyError.
Proof.
  cbn [testCheckVcfDomainDestroy]. split.
  - intros H.
    destruct (check_resources_cases resources)
      as [Hall | (pre & rs & post & -> & Hpre & [Hs | [Hs | (Hty & Hp)]])].
    + left. exact Hall.
    + right. exists pre, rs, post. auto.
    + rewrite (check_resources_passed_over _ _ Hpre),
        (check_resources_domain _ _ _ Hs) in H. discriminate H.
    + rewrite (check_resources_passed_over _ _ Hpre),
        (check_resources_no_primary _ _ Hty Hp) in H. discriminate H.
  - intros [Hall | (pre & rs & post & -> & Hpre & Hs)].
    + apply check_resources_all_passed, Hall.
    + rewrite (check_resources_passed_over _ _ Hpre).
      apply (check_resources_domain _ _ _ Hs).
Qed.

(** X21.  The verdict of the destroy check depends on the order in which
    the resources are visited: a failing lookup before a domain that still
    exists lets the check pass, the other order reports the domain. *)
Theorem testCheckVcfDomainDestroy_order (failing present : ResourceState) :
  domain_answering GetDomain failing ReplyError ->
  domain_answering GetDomain present ReplyPayload ->
  testCheckVcfDomainDestroy (Some GetDomain) quoted (Some [failing; present]) = Ok tt
  /\ testCheckVcfDomainDestroy (Some GetDomain) quoted (Some [present; failing])
     = Err ("domain with id " +:+ quoted (domain_id present) +:+ " not destroyed")
  /\ [failing; present] ≡ₚ [present; failing].
Proof.
  intros Hf Hp. cbn [testCheckVcfDomainDestroy].
  split; [apply (check_resources_domain _ _ _ Hf) |].
  split; [apply (check_resources_domain _ _ _ Hp) |].
  apply Permutation_swap.
Qed.

End DestroyFacts.

(** ** Concrete runs *)

(** The acceptance test's [nsx_configuration], completed with the audit
    password, supplies every field of [NsxSchema] and is turned down. *)
Lemma TryConvertToNsxSpec_rejects_schema_map_witness :
  result (TryConvertToNsxSpec Sample.IsEmpty Sample.TryConvertToNsxManagerNodeSpec
            (Some Sample.nsx_full))
  = Err "cannot convert to NsxTSpec, nsx_manager is required".
Proof.
  apply (TryConvertToNsxSpec_rejects_schema_map Sample.IsEmpty string
           Sample.TryConvertToNsxManagerNodeSpec Sample.node_schema pkg_init).
  - rewrite NsxSchema_keys. apply (bool_decide_unpack _). vm_compute. exact I.
  - exists "10.0.0.66". split; [reflexivity | discriminate].
  - exists "sfo-w01-nsx01.sfo.rainpole.io". split; [reflexivity | discriminate].
Defined.

(** An empty [id], and an empty [license_key] behind four passed checks,
    are reported by name. *)
Lemma required_strings_checked_witness :
  fails_naming
    (result (TryConvertToVmNic Sample.IsEmpty (Some {[ "id" := VString "" ]})))
    "id"
  /\ fails_naming
       (result (TryConvertToNsxSpec Sample.IsEmpty
                  Sample.TryConvertToNsxManagerNodeSpec
                  (Some Sample.nsx_empty_license)))
       "license_key".
Proof.
  split.
  - apply (required_strings_checked Sample.IsEmpty string
             Sample.TryConvertToNsxManagerNodeSpec {[ "id" := VString "" ]}).
    reflexivity.
  - apply (required_strings_checked Sample.IsEmpty string
             Sample.TryConvertToNsxManagerNodeSpec Sample.nsx_empty_license).
    + exists "10.0.0.66". split; [reflexivity | discriminate].
    + exists "sfo-w01-nsx01.sfo.rainpole.io". split; [reflexivity | discriminate].
    + vm_compute. discriminate.
    + exists "Nqkva_parola1". split; [reflexivity | discriminate].
    + reflexivity.
Defined.

(** C2, as stated, fails: with [id] absent the converter panics instead of
    returning an error. *)
Lemma absent_id_panics :
  (∅ : gmap string value) !! "id" = None
  /\ result (TryConvertToVmNic Sample.IsEmpty (Some ∅)) = Panic.
Proof. split; reflexivity. Qed.

(** The vip entries of [nsx_accepted] come back from the flattener. *)
Lemma flatten_after_convert_keeps_vip_witness :
  exists flat : gmap string value,
    FlattenNsxClusterRef (Some Sample.cluster_ref) = Some (Some flat)
    /\ flat !! "vip" = Sample.nsx_accepted !! "vip"
    /\ flat !! "vip_fqdn" = Sample.nsx_accepted !! "vip_fqdn"
    /\ forall k, is_Some (flat !! k) -> k = "id" \/ k = "vip" \/ k = "vip_fqdn".
Proof.
  apply (flatten_after_convert_keeps_vip Sample.IsEmpty string
           Sample.TryConvertToNsxManagerNodeSpec Sample.nsx_accepted
           Sample.nsx_accepted_spec Sample.cluster_ref).
  - vm_compute. reflexivity.
  - reflexivity.
  - reflexivity.
Defined.

(** C3, as stated, fails: [nsx_full] has exactly the keys of [NsxSchema],
    none of them empty, and no struct at all flattens to it. *)
Lemma full_nsx_map_not_reproduced :
  dom Sample.nsx_full = dom (fst (NsxSchema Sample.node_schema pkg_init))
  /\ map_Forall (fun _ v => Sample.IsEmpty v = false) Sample.nsx_full
  /\ ~ exists ref, FlattenNsxClusterRef ref = Some (Some Sample.nsx_full).
Proof.
  split; [| split].
  - rewrite NsxSchema_keys. apply (bool_decide_unpack _). vm_compute. exact I.
  - apply (bool_decide_unpack _). vm_compute. exact I.
  - intros (ref & H).
    assert (Hkey : forall flat : gmap string value,
               Some (Some flat) = Some (Some Sample.nsx_full) ->
               flat !! "license_key" <> None).
    { intros flat [= ->]. discriminate. }
    destruct ref as [r |]; apply Hkey in H; apply H; reflexivity.
Qed.

(** With their optional fields left out, both converters succeed and
    leave the corresponding fields empty. *)
Lemma optional_fields_left_zero_witness :
  (exists nic,
     result (TryConvertToVmNic Sample.IsEmpty (Some Sample.vmnic_id_only)) = Ok nic
     /\ VMNic_Uplink nic = "" /\ VMNic_VdsName nic = "")
  /\ (exists spec,
        result (TryConvertToNsxSpec Sample.IsEmpty
                  Sample.TryConvertToNsxManagerNodeSpec (Some Sample.nsx_minimal))
        = Ok spec
        /\ FormFactor spec = "" /\ NsxManagerAuditPassword spec = "").
Proof.
  split.
  - exists (mkVMNic "vmnic0" "" "").
    split; [vm_compute; reflexivity |].
    split;
      apply (proj1 (optional_fields_left_zero Sample.IsEmpty string
                      Sample.TryConvertToNsxManagerNodeSpec Sample.vmnic_id_only)
               (mkVMNic "vmnic0" "" ""));
      try (vm_compute; reflexivity); left; reflexivity.
  - exists Sample.nsx_minimal_spec.
    split; [vm_compute; reflexivity |].
    split;
      apply (proj2 (optional_fields_left_zero Sample.IsEmpty string
                      Sample.TryConvertToNsxManagerNodeSpec Sample.nsx_minimal)
               Sample.nsx_minimal_spec);
      try (vm_compute; reflexivity); left; reflexivity.
Defined.

(** The fields of the spec that [nsx_accepted] converts to. *)
Lemma TryConvertToNsxSpec_fields_witness :
  (exists vip, Sample.nsx_accepted !! "vip" = Some (VString vip)
               /\ Vip Sample.nsx_accepted_spec = Some vip)
  /\ (exists vipFqdn,
        Sample.nsx_accepted !! "vip_fqdn" = Some (VString vipFqdn)
        /\ VipFqdn Sample.nsx_accepted_spec = Some vipFqdn)
  /\ Sample.nsx_accepted !! "nsx_manager_admin_password"
     = Some (VString (NsxManagerAdminPassword Sample.nsx_accepted_spec))
  /\ Sample.nsx_accepted !! "license_key"
     = Some (VString (LicenseKey Sample.nsx_accepted_spec))
  /\ exists nodes,
       Sample.nsx_accepted !! "nsx_manager_node" = Some (VList nodes)
       /\ Forall2 (fun entry s =>
                     exists n, entry = VMap n
                               /\ Sample.TryConvertToNsxManagerNodeSpec n = Ok s)
                  nodes (NsxManagerSpecs Sample.nsx_accepted_spec).
Proof.
  apply (TryConvertToNsxSpec_fields Sample.IsEmpty string
           Sample.TryConvertToNsxManagerNodeSpec Sample.nsx_accepted
           Sample.nsx_accepted_spec).
  vm_compute. reflexivity.
Defined.

(** An otherwise accepted map with no node. *)
Lemma empty_node_list_error_witness :
  result (TryConvertToNsxSpec Sample.IsEmpty Sample.TryConvertToNsxManagerNodeSpec
            (Some Sample.nsx_no_nodes))
  = Err "cannot convert to NsxTSpec, at least one entry for nsx_manager is required".
Proof.
  apply (empty_node_list_error Sample.IsEmpty string
           Sample.TryConvertToNsxManagerNodeSpec Sample.nsx_no_nodes).
  - exists "10.0.0.66". split; [reflexivity | discriminate].
  - exists "sfo-w01-nsx01.sfo.rainpole.io". split; [reflexivity | discriminate].
  - vm_compute. discriminate.
  - exists "Nqkva_parola1". split; [reflexivity | discriminate].
  - exists "AAAAA-BBBBB-CCCCC-DDDDD-EEEEE". split; [reflexivity | discriminate].
  - right. exists (VString "small"). split; [reflexivity | right; eauto].
  - right. exists (VString "Nqkva_parola2"). split; [reflexivity | right; eauto].
  - reflexivity.
Defined.

(** C6, as stated, fails: the node list of this map is empty, and the error
    is the one about [vip], which is checked first. *)
Lemma empty_node_list_other_error :
  Sample.nsx_empty_vip !! "nsx_manager_node" = Some (VList [])
  /\ result (TryConvertToNsxSpec Sample.IsEmpty Sample.TryConvertToNsxManagerNodeSpec
               (Some Sample.nsx_empty_vip))
     = Err "cannot convert to NsxTSpec, vip is required".
Proof. split; reflexivity. Qed.





(** ** Concrete runs of the further properties *)

(** X2 on a fully populated vmnic. *)
Lemma TryConvertToVmNic_copies_strings_witness :
  (Fixture.vmnic_full !! "id" = Some (VString (VMNic_ID Fixture.vmnic_full_result))
   /\ VMNic_ID Fixture.vmnic_full_result <> "")
  /\ (forall s, Fixture.vmnic_full !! "uplink" = Some (VString s) ->
      Sample.IsEmpty (VString s) = false ->
      VMNic_Uplink Fixture.vmnic_full_result = s)
  /\ (forall s, Fixture.vmnic_full !! "vds_name" = Some (VString s) ->
      Sample.IsEmpty (VString s) = false ->
      VMNic_VdsName Fixture.vmnic_full_result = s).
Proof.
  apply (TryConvertToVmNic_copies_strings Sample.IsEmpty Fixture.vmnic_full
           Fixture.vmnic_full_result).
  vm_compute. reflexivity.
Defined.

(** X7 on [Sample.nsx_accepted]. *)
Lemma TryConvertToNsxSpec_result_populated_witness :
  (exists vip, Vip Sample.nsx_accepted_spec = Some vip /\ vip <> "")
  /\ (exists vipFqdn, VipFqdn Sample.nsx_accepted_spec = Some vipFqdn /\ vipFqdn <> "")
  /\ LicenseKey Sample.nsx_accepted_spec <> ""
  /\ NsxManagerAdminPassword Sample.nsx_accepted_spec <> ""
  /\ NsxManagerSpecs Sample.nsx_accepted_spec <> [].
Proof.
  apply (TryConvertToNsxSpec_result_populated Sample.IsEmpty string
           Sample.TryConvertToNsxManagerNodeSpec Sample.nsx_accepted
           Sample.nsx_accepted_spec).
  vm_compute. reflexivity.
Defined.

(** X8: the nameless node in second place ends the call with the node
    converter's error. *)
Lemma TryConvertToNsxSpec_first_bad_node_witness :
  result (TryConvertToNsxSpec Sample.IsEmpty Sample.TryConvertToNsxManagerNodeSpec
            (Some Fixture.nsx_bad_node))
  = Err "cannot convert to NsxManagerSpec, name is required".
Proof.
  unshelve eapply
    (proj1 (TryConvertToNsxSpec_first_bad_node Sample.IsEmpty string
              Sample.TryConvertToNsxManagerNodeSpec Fixture.nsx_bad_node
              "10.0.0.66" "sfo-w01-nsx01.sfo.rainpole.io" "Nqkva_parola1"
              "AAAAA-BBBBB-CCCCC-DDDDD-EEEEE"
              [Sample.node "sfo-w01-nsx01a" "10.0.0.62"]
              (VMap Fixture.nameless_node)
              [Sample.node "sfo-w01-nsx01c" "10.0.0.64"]
              ["sfo-w01-nsx01a"] _ _) Fixture.nameless_node).
  - repeat split; try reflexivity; try discriminate.
    + right. exists (VString "small"). split; [reflexivity | right; eauto].
    + right. exists (VString "Nqkva_parola2"). split; [reflexivity | right; eauto].
  - constructor; [| constructor]. eexists. split; reflexivity.
  - reflexivity.
  - reflexivity.
Defined.

(** X9 on the map with an empty vip. *)
Lemma TryConvertToNsxSpec_errors_witness :
  "cannot convert to NsxTSpec, vip is required" ∈ nsx_messages
  \/ exists nodes n,
       at_key (Some Sample.nsx_empty_vip) "nsx_manager_node" = VList nodes
       /\ VMap n ∈ nodes
       /\ Sample.TryConvertToNsxManagerNodeSpec n
          = Err "cannot convert to NsxTSpec, vip is required".
Proof.
  apply (TryConvertToNsxSpec_errors Sample.IsEmpty string
           Sample.TryConvertToNsxManagerNodeSpec (Some Sample.nsx_empty_vip)).
  reflexivity.
Defined.

(** X11 on one reference. *)
Lemma FlattenNsxClusterRef_injective_witness :
  Some Sample.cluster_ref = Some Sample.cluster_ref.
Proof.
  apply (FlattenNsxClusterRef_injective (Some Sample.cluster_ref)
           (Some Sample.cluster_ref)).
  reflexivity.
Defined.

(** X15: 2147483648 shares come out as -2147483648. *)
Lemma resource_pool_shares_value_wraps_witness :
  exists cpu memory,
    at_key Fixture.pool_overflow "cpu_shares_value" = VInt cpu
    /\ at_key Fixture.pool_overflow "memory_shares_value" = VInt memory
    /\ CPUSharesValue Fixture.pool_overflow_spec = int32_of_int cpu
    /\ MemorySharesValue Fixture.pool_overflow_spec = int32_of_int memory
    /\ in_int32 (CPUSharesValue Fixture.pool_overflow_spec)
    /\ in_int32 (MemorySharesValue Fixture.pool_overflow_spec)
    /\ (in_int32 cpu -> CPUSharesValue Fixture.pool_overflow_spec = cpu)
    /\ (in_int32 memory -> MemorySharesValue Fixture.pool_overflow_spec = memory).
Proof.
  apply (resource_pool_shares_value_wraps Sample.ToStringPointer Sample.ToInt32Pointer
           Sample.ToBoolPointer Sample.int64_of_float64 Fixture.pool_overflow
           Fixture.pool_overflow_spec).
  vm_compute. reflexivity.
Defined.

(** X16 on the pool of [Sample]. *)
Lemma resource_pool_spec_follows_schema_witness :
  list_to_set
    (reads (resource_pool_spec Sample.ToStringPointer Sample.ToInt32Pointer
              Sample.ToBoolPointer Sample.int64_of_float64 (VMap Fixture.pool_data)))
  = dom (element_resource (fst (getResourcePoolSchema pkg_init)))
  /\ forall k, k ∈ asserted_pool_keys ->
       exists sch,
         element_resource (fst (getResourcePoolSchema pkg_init)) !! k = Some sch
         /\ has_type (Type_ sch) (at_key Fixture.pool_data k).
Proof.
  apply (resource_pool_spec_follows_schema Sample.ToStringPointer Sample.ToInt32Pointer
           Sample.ToBoolPointer Sample.int64_of_float64 pkg_init Fixture.pool_data
           Fixture.pool_spec).
  vm_compute. reflexivity.
Defined.

(** X18: one folder in [vm_folder], as the schema types it. *)
Lemma GetSddcClusterSpecFromSchema_schema_vm_folder_witness :
  result (GetSddcClusterSpecFromSchema Sample.IsEmpty Sample.ToStringPointer
            Sample.ToInt32Pointer Sample.ToBoolPointer Sample.int64_of_float64
            [VMap Fixture.cluster_with_folder])
  = Panic.
Proof.
  apply (GetSddcClusterSpecFromSchema_schema_vm_folder Sample.IsEmpty
           Sample.ToStringPointer Sample.ToInt32Pointer Sample.ToBoolPointer
           Sample.int64_of_float64 pkg_init
           (lit [set_Type TypeMap;
                 set_Description "Virtual Machine folders map. One among: MANAGEMENT, NETWORKING";
                 set_Optional true;
                 set_Elem (inl (lit [set_Type TypeString]))])
           Fixture.cluster_with_folder [] (Some "sfo-m01-cl01") "" (Some 1%Z)).
  - reflexivity.
  - vm_compute. exact I.
  - reflexivity.
  - reflexivity.
  - reflexivity.
  - reflexivity.
Defined.

(** X21: a failing lookup before, or after, a domain that still exists. *)
Lemma testCheckVcfDomainDestroy_order_witness :
  testCheckVcfDomainDestroy (Some Fixture.GetDomain) Fixture.quoted
    (Some [Fixture.domain "down"; Fixture.domain "kept"]) = Ok tt
  /\ testCheckVcfDomainDestroy (Some Fixture.GetDomain) Fixture.quoted
       (Some [Fixture.domain "kept"; Fixture.domain "down"])
     = Err ("domain with id " +:+ Fixture.quoted (domain_id (Fixture.domain "kept"))
            +:+ " not destroyed")
  /\ [Fixture.domain "down"; Fixture.domain "kept"]
     ≡ₚ [Fixture.domain "kept"; Fixture.domain "down"].
Proof.
  apply (testCheckVcfDomainDestroy_order Fixture.GetDomain Fixture.quoted
           (Fixture.domain "down") (Fixture.domain "kept")).
  - split; [reflexivity |]. eexists. split; reflexivity.
  - split; [reflexivity |]. eexists. split; reflexivity.
Defined.
